(** * St. Galler management model: the scoring and benchmarking engine

    A shallow embedding of [StGallerFrameworkAnalyzer] (st_galler_app.py):
    the four dimension aggregators, the benchmark comparator, the
    development-profile classifier and the orchestrator.

    Numbers are IEEE 754 binary64 values, as NumPy computes them: the
    kernel's primitive floats carry the arithmetic, and their specification
    ([FloatAxioms], over [SpecFloat]) carries the order reasoning.
    The ratings mapping holds Python ints: the sliders of the user interface
    produce ints in 1..7, and an absent indicator reads as the int 0.
    A call that would raise in Python returns [None]; the aggregators are
    shown to return a result on every ratings mapping.

    The table of theoretical foundations ([_lade_theoretische_grundlagen])
    is display text that no computation reads; it is left out. *)

From Stdlib Require Import ZArith Floats Bool Lia.
From Stdlib Require Uint63.
From stdpp Require Import gmap strings list.

Set Warnings "-inexact-float".

(** ** Python and NumPy primitives *)

Module Py.

(** NumPy stores a list of Python ints as int64 and casts every element to
    float64 before it accumulates a mean.  The cast is exact up to 2^53 and
    rounds to nearest above.  This definition is the code's cast for
    -2^63 < z < 2^63 only: [Uint63.of_Z] wraps modulo 2^63, where NumPy
    stores a larger int as uint64 or as an object and [np.mean] gives
    another value or raises [OverflowError].  A statement that asserts a
    result of the code therefore bounds the ratings it reads ([cast_range]
    or [rated_within] below). *)
Definition float_of_int (z : Z) : float :=
  if (z <? 0)%Z then (- of_uint63 (Uint63.of_Z (- z)))%float
  else of_uint63 (Uint63.of_Z z).

(** [len(xs)] as the float64 divisor of a mean. *)
Definition float_of_len {A} (xs : list A) : float :=
  of_uint63 (Uint63.of_Z (Z.of_nat (length xs))).

(** [np.add.reduce] on float64: fewer than eight elements are accumulated
    one by one, left to right, starting from zero.  (The sign of the initial
    zero shows only in a sum of negative zeros, which no int and no square
    is.) *)
Definition np_sum (xs : list float) : float :=
  fold_left PrimFloat.add xs 0%float.

(** [np.mean] on an array that is already float64. *)
Definition np_mean (xs : list float) : float :=
  (np_sum xs / float_of_len xs)%float.

(** [np.mean] on a list of Python ints. *)
Definition np_mean_int (xs : list Z) : float :=
  np_mean (float_of_int <$> xs).

(** [np.var] with [ddof = 0]: the mean of the squared deviations from the
    mean, the square being [x * x]. *)
Definition np_var (xs : list float) : float :=
  let arrmean := np_mean xs in
  let x := (λ a, a - arrmean)%float <$> xs in
  let x := (λ d, d * d)%float <$> x in
  (np_sum x / float_of_len xs)%float.

(** [np.std]: the population standard deviation. *)
Definition np_std (xs : list float) : float :=
  PrimFloat.sqrt (np_var xs).

(** An insertion-ordered [dict] with string keys, built by assigning each
    key once: the list of its items in insertion order. *)
Definition dict (V : Type) : Type := list (string * V).

(** [d.get(k)]: [None] when the key is absent. *)
Fixpoint dict_get {V} (d : dict V) (k : string) : option V :=
  match d with
  | [] => None
  | (k', v) :: d' => if String.eqb k' k then Some v else dict_get d' k
  end.

(** [list(d.values())]. *)
Definition values {V} (d : dict V) : list V := d.*2.

(** [list(d)], the keys in insertion order. *)
Definition keys {V} (d : dict V) : list string := d.*1.

(** The loop of the builtin [max(d, key=d.get)]: the keys are visited in
    insertion order, and the running best is replaced only by a candidate
    whose value is strictly greater ([val > maxval]). *)
Fixpoint max_loop (best : string * float) (rest : dict float) : string * float :=
  match rest with
  | [] => best
  | (k, v) :: rest' =>
      if (best.2 <? v)%float then max_loop (k, v) rest' else max_loop best rest'
  end.

(** The loop of [min(d, key=d.get)]: replaced only by a strictly smaller
    candidate ([val < minval]). *)
Fixpoint min_loop (best : string * float) (rest : dict float) : string * float :=
  match rest with
  | [] => best
  | (k, v) :: rest' =>
      if (v <? best.2)%float then min_loop (k, v) rest' else min_loop best rest'
  end.

(** [max(d, key=d.get)]; [None] stands for the [ValueError] that an empty
    dict raises. *)
Definition max_key (d : dict float) : option string :=
  match d with
  | [] => None
  | item :: rest => Some (max_loop item rest).1
  end.

(** [min(d, key=d.get)]. *)
Definition min_key (d : dict float) : option string :=
  match d with
  | [] => None
  | item :: rest => Some (min_loop item rest).1
  end.

(** [max(d.values())]. *)
Definition max_value (d : dict float) : option float :=
  match d with
  | [] => None
  | item :: rest => Some (max_loop item rest).2
  end.

End Py.

(** ** Reference data *)

(** One record of [empirische_benchmarks]: the inner dict with its three
    keys. *)
Module Benchmark.
Record t := {
  optimal : float;
  studie : string;
  befund : string
}.
End Benchmark.

Definition _lade_empirische_benchmarks : gmap string Benchmark.t :=
  <["perspektiven_balance" :=
      {| Benchmark.optimal := 0.8;
         Benchmark.studie := "Gomez & Weber (2020) - Balanced Management Performance";
         Benchmark.befund := "Unternehmen mit ausgeglichenen Perspektiven zeigen 25% höhere Gesamtperformance" |}]>
  (<["ordnungsmomente_kohärenz" :=
      {| Benchmark.optimal := 0.75;
         Benchmark.studie := "Rüegg-Stürm (2019) - Organizational Coherence";
         Benchmark.befund := "Kohärente Ordnungsmomente reduzieren Reibungsverluste um 40%" |}]>
  (<["umwelt_sensitivität" :=
      {| Benchmark.optimal := 0.7;
         Benchmark.studie := "Ansoff & Sullivan (2021) - Environmental Scanning";
         Benchmark.befund := "Hohe Umweltwahrnehmung korreliert mit 30% besserer Anpassungsfähigkeit" |}]>
   ∅)).

(** The attribute set once by [__init__]. *)
Definition empirische_benchmarks : gmap string Benchmark.t :=
  _lade_empirische_benchmarks.

(** ** Benchmark comparator *)

(** The dict that the comparator returns. *)
Module Vergleich.
Record t := {
  aktueller_wert : float;
  optimaler_benchmark : float;
  abweichung : float;
  interpretation : string;
  studie : string;
  empirischer_befund : string
}.
End Vergleich.

(** [_vergleiche_mit_benchmarks(self, scores, benchmark_key, aktueller_wert)].
    [benchmark] is the record found, or the empty dict ([None]) whose every
    [get] falls back to its default. *)
Definition _vergleiche_mit_benchmarks
    (scores : Py.dict float) (benchmark_key : string) (aktueller_wert : float)
    : Vergleich.t :=
  let benchmark := empirische_benchmarks !! benchmark_key in
  let optimal_wert := default 0.7%float (Benchmark.optimal <$> benchmark) in
  {| Vergleich.aktueller_wert := aktueller_wert;
     Vergleich.optimaler_benchmark := optimal_wert;
     Vergleich.abweichung := (aktueller_wert - optimal_wert)%float;
     Vergleich.interpretation :=
       if (optimal_wert <? aktueller_wert)%float
       then "überdurchschnittlich" else "unterdurchschnittlich";
     Vergleich.studie := default "" (Benchmark.studie <$> benchmark);
     Vergleich.empirischer_befund := default "" (Benchmark.befund <$> benchmark) |}.

(** ** Development profile *)

Definition profile : gmap string string :=
  <["reflexion" := "Lernende Organisation"]>
  (<["innovation" := "Innovative Organisation"]>
  (<["transformation" := "Transformative Organisation"]> ∅)).

(** [_bestimme_entwicklungs_profil(self, scores)]; [max_score] is computed
    and not used. *)
Definition _bestimme_entwicklungs_profil (scores : Py.dict float) : option string :=
  max_score ← Py.max_value scores;
  max_dimension ← Py.max_key scores;
  Some (default "Ausgeglichene Organisation" (profile !! max_dimension)).

(** ** Dimension aggregators *)

(** [antworten.get(key, 0)]. *)
Definition get (antworten : gmap string Z) (key : string) : Z :=
  default 0%Z (antworten !! key).

Module Management.
Record t := {
  scores : Py.dict float;
  balance : float;
  dominante_perspektive : string;
  empirischer_vergleich : Vergleich.t
}.
End Management.

Definition analysiere_management_perspektiven (antworten : gmap string Z)
    : option Management.t :=
  let normativ_indikatoren :=
    [ get antworten "wertekongruenz"; get antworten "sinnstiftung";
      get antworten "identitaetsbeitrag"; get antworten "legitimitaet" ] in
  let strategisch_indikatoren :=
    [ get antworten "wettbewerbsvorteil"; get antworten "marktrelevanz";
      get antworten "ressourcenpassung"; get antworten "zukunftsfaehigkeit" ] in
  let operativ_indikatoren :=
    [ get antworten "prozesseffizienz"; get antworten "ressourcenoptimierung";
      get antworten "qualitaetssicherung"; get antworten "skalierbarkeit" ] in
  let scores :=
    [ ("normativ", Py.np_mean_int normativ_indikatoren);
      ("strategisch", Py.np_mean_int strategisch_indikatoren);
      ("operativ", Py.np_mean_int operativ_indikatoren) ] in
  let perspektiven_scores := Py.values scores in
  let balance := (1 - Py.np_std perspektiven_scores / 3.5)%float in
  dominante ← Py.max_key scores;
  Some {| Management.scores := scores;
          Management.balance := balance;
          Management.dominante_perspektive := dominante;
          Management.empirischer_vergleich :=
            _vergleiche_mit_benchmarks scores "perspektiven_balance" balance |}.

Module Ordnung.
Record t := {
  scores : Py.dict float;
  kohärenz : float;
  schwaechstes_ordnungselement : string;
  staerkstes_ordnungselement : string;
  empirischer_vergleich : Vergleich.t
}.
End Ordnung.

Definition analysiere_ordnungsmomente (antworten : gmap string Z)
    : option Ordnung.t :=
  let kultur_indikatoren :=
    [ get antworten "wertekonsens"; get antworten "verhaltensnormen";
      get antworten "gemeinschaftsgefuehl" ] in
  let strukturen_indikatoren :=
    [ get antworten "rollenklaerung"; get antworten "entscheidungskompetenz";
      get antworten "koordinationsmechanismen" ] in
  let prozesse_indikatoren :=
    [ get antworten "prozessstandardisierung";
      get antworten "entscheidungsgeschwindigkeit";
      get antworten "kontinuierliche_verbesserung" ] in
  let technologien_indikatoren :=
    [ get antworten "systemunterstuetzung"; get antworten "digitalisierungsgrad";
      get antworten "datennutzung" ] in
  let scores :=
    [ ("kultur", Py.np_mean_int kultur_indikatoren);
      ("strukturen", Py.np_mean_int strukturen_indikatoren);
      ("prozesse", Py.np_mean_int prozesse_indikatoren);
      ("technologien", Py.np_mean_int technologien_indikatoren) ] in
  let ordnungs_scores := Py.values scores in
  let kohärenz := (1 - Py.np_std ordnungs_scores / 3.5)%float in
  schwaechstes ← Py.min_key scores;
  staerkstes ← Py.max_key scores;
  Some {| Ordnung.scores := scores;
          Ordnung.kohärenz := kohärenz;
          Ordnung.schwaechstes_ordnungselement := schwaechstes;
          Ordnung.staerkstes_ordnungselement := staerkstes;
          Ordnung.empirischer_vergleich :=
            _vergleiche_mit_benchmarks scores "ordnungsmomente_kohärenz" kohärenz |}.

Module Entwicklung.
Record t := {
  scores : Py.dict float;
  entwicklungs_profil : string;
  anpassungs_faehigkeit : float
}.
End Entwicklung.

Definition analysiere_entwicklungsperspektiven (antworten : gmap string Z)
    : option Entwicklung.t :=
  let reflexion_indikatoren :=
    [ get antworten "erfahrungsauswertung"; get antworten "feedback_kultur";
      get antworten "lernbereitschaft" ] in
  let innovation_indikatoren :=
    [ get antworten "kreativitaetsfoerderung";
      get antworten "experimentierfreudigkeit";
      get antworten "veraenderungsbereitschaft" ] in
  let transformation_indikatoren :=
    [ get antworten "anpassungsflexibilitaet";
      get antworten "umstrukturierungskompetenz";
      get antworten "zukunftsgestaltung" ] in
  let scores :=
    [ ("reflexion", Py.np_mean_int reflexion_indikatoren);
      ("innovation", Py.np_mean_int innovation_indikatoren);
      ("transformation", Py.np_mean_int transformation_indikatoren) ] in
  profil ← _bestimme_entwicklungs_profil scores;
  Some {| Entwicklung.scores := scores;
          Entwicklung.entwicklungs_profil := profil;
          Entwicklung.anpassungs_faehigkeit := Py.np_mean (Py.values scores) |}.

Module Systemisch.
Record t := {
  umwelt_sensitivitaet : float;
  anpassungs_faehigkeit : float;
  widerstands_faehigkeit : float;
  systemische_gesundheit : float;
  empirischer_vergleich : Vergleich.t
}.
End Systemisch.

Definition analysiere_systemische_eigenschaften (antworten : gmap string Z)
    : option Systemisch.t :=
  let umwelt_indikatoren :=
    [ get antworten "marktbeobachtung"; get antworten "trendfruchterkennung";
      get antworten "stakeholder_dialog" ] in
  let umwelt_sensitivitaet := Py.np_mean_int umwelt_indikatoren in
  let anpassung_indikatoren :=
    [ get antworten "reaktionsgeschwindigkeit"; get antworten "aenderungsmanagement";
      get antworten "ressourcenflexibilitaet" ] in
  let anpassungs_faehigkeit := Py.np_mean_int anpassung_indikatoren in
  let resilienz_indikatoren :=
    [ get antworten "krisenresistenz"; get antworten "ausfallsicherheit";
      get antworten "erneuerungsfaehigkeit" ] in
  let widerstands_faehigkeit := Py.np_mean_int resilienz_indikatoren in
  Some {| Systemisch.umwelt_sensitivitaet := umwelt_sensitivitaet;
          Systemisch.anpassungs_faehigkeit := anpassungs_faehigkeit;
          Systemisch.widerstands_faehigkeit := widerstands_faehigkeit;
          Systemisch.systemische_gesundheit :=
            Py.np_mean [umwelt_sensitivitaet; anpassungs_faehigkeit;
                        widerstands_faehigkeit];
          Systemisch.empirischer_vergleich :=
            _vergleiche_mit_benchmarks
              [("umwelt", umwelt_sensitivitaet)] "umwelt_sensitivitaet"
              umwelt_sensitivitaet |}.

(** ** Orchestrator *)

(** The dataclass [StGallerAnalyseErgebnis]. *)
Record StGallerAnalyseErgebnis := {
  normativ_score : float;
  strategisch_score : float;
  operativ_score : float;
  perspektiven_balance : float;
  kultur_score : float;
  strukturen_score : float;
  prozesse_score : float;
  technologien_score : float;
  ordnungsmomente_kohärenz : float;
  reflexions_fähigkeit : float;
  innovations_fähigkeit : float;
  transformations_fähigkeit : float;
  umwelt_sensitivität : float;
  anpassungs_fähigkeit : float;
  widerstands_fähigkeit : float;
  theoretische_referenzen : list string;
  empirische_indikatoren : gmap string float
}.

(** [d[k]]: [None] stands for the [KeyError] of an absent key. *)
Definition item {V} (d : Py.dict V) (k : string) : option V := Py.dict_get d k.

Definition durchfuehr_komplette_analyse (antworten : gmap string Z)
    : option StGallerAnalyseErgebnis :=
  management_perspektiven ← analysiere_management_perspektiven antworten;
  ordnungsmomente ← analysiere_ordnungsmomente antworten;
  entwicklungsperspektiven ← analysiere_entwicklungsperspektiven antworten;
  systemische_eigenschaften ← analysiere_systemische_eigenschaften antworten;
  normativ ← item (Management.scores management_perspektiven) "normativ";
  strategisch ← item (Management.scores management_perspektiven) "strategisch";
  operativ ← item (Management.scores management_perspektiven) "operativ";
  kultur ← item (Ordnung.scores ordnungsmomente) "kultur";
  strukturen ← item (Ordnung.scores ordnungsmomente) "strukturen";
  prozesse ← item (Ordnung.scores ordnungsmomente) "prozesse";
  technologien ← item (Ordnung.scores ordnungsmomente) "technologien";
  reflexion ← item (Entwicklung.scores entwicklungsperspektiven) "reflexion";
  innovation ← item (Entwicklung.scores entwicklungsperspektiven) "innovation";
  transformation ← item (Entwicklung.scores entwicklungsperspektiven) "transformation";
  Some {| normativ_score := normativ;
          strategisch_score := strategisch;
          operativ_score := operativ;
          perspektiven_balance := Management.balance management_perspektiven;
          kultur_score := kultur;
          strukturen_score := strukturen;
          prozesse_score := prozesse;
          technologien_score := technologien;
          ordnungsmomente_kohärenz := Ordnung.kohärenz ordnungsmomente;
          reflexions_fähigkeit := reflexion;
          innovations_fähigkeit := innovation;
          transformations_fähigkeit := transformation;
          umwelt_sensitivität := Systemisch.umwelt_sensitivitaet systemische_eigenschaften;
          anpassungs_fähigkeit := Systemisch.anpassungs_faehigkeit systemische_eigenschaften;
          widerstands_fähigkeit := Systemisch.widerstands_faehigkeit systemische_eigenschaften;
          theoretische_referenzen :=
            [ "Rüegg-Stürm, J. & Grand, S. (2019). Das St. Galler Management Modell";
              "Gomez, P. & Weber, B. (2020). Strategic Management";
              "Mintzberg, H. & Westley, F. (2021). Organizational Learning";
              "Luhmann, N. (2018). Social Systems and Management" ];
          empirische_indikatoren := ∅ |}.

(** ** Vocabulary of the statements *)

(** *** Order and classes of binary64 values *)

Module SF.

Definition is_lt_or_eq (c : comparison) : bool :=
  match c with Gt => false | _ => true end.

Definition seq_cmp (c1 c2 : comparison) : comparison :=
  match c1 with Lt => Lt | _ => c2 end.

(** The comparison of two floats as an [option comparison], with the three
    primitive tests read off it. *)
Definition cmp (x y : float) : option comparison :=
  SFcompare (Prim2SF x) (Prim2SF y).

(** Zeros and finite values, as opposed to infinities and NaN. *)
Definition finite_class (x : spec_float) : bool :=
  match x with
  | S754_zero _ | S754_finite _ _ _ => true
  | _ => false
  end.

End SF.

(** *** First maximum and first minimum of a dict *)

Section Vocabulary.
Local Open Scope float_scope.

(** [k] is the first key of [d] that attains the maximum: its value is
    strictly greater than every value before it and at least every value
    after it. *)
Definition first_max (d : Py.dict float) (k : string) : Prop :=
  ∃ pre v post, d = pre ++ (k, v) :: post ∧
    Forall (λ p, (p.2 <? v) = true) pre ∧
    Forall (λ p, (p.2 <=? v) = true) post.

(** [k] is the first key of [d] that attains the minimum. *)
Definition first_min (d : Py.dict float) (k : string) : Prop :=
  ∃ pre v post, d = pre ++ (k, v) :: post ∧
    Forall (λ p, (v <? p.2) = true) pre ∧
    Forall (λ p, (v <=? p.2) = true) post.

Definition no_nan (d : Py.dict float) : Prop :=
  Forall (λ p, is_nan p.2 = false) d.

(** *** Indicators *)

Definition management_indikatoren : list string :=
  [ "wertekongruenz"; "sinnstiftung"; "identitaetsbeitrag"; "legitimitaet";
    "wettbewerbsvorteil"; "marktrelevanz"; "ressourcenpassung";
    "zukunftsfaehigkeit"; "prozesseffizienz"; "ressourcenoptimierung";
    "qualitaetssicherung"; "skalierbarkeit" ].

Definition ordnungs_indikatoren : list string :=
  [ "wertekonsens"; "verhaltensnormen"; "gemeinschaftsgefuehl";
    "rollenklaerung"; "entscheidungskompetenz"; "koordinationsmechanismen";
    "prozessstandardisierung"; "entscheidungsgeschwindigkeit";
    "kontinuierliche_verbesserung"; "systemunterstuetzung";
    "digitalisierungsgrad"; "datennutzung" ].

Definition entwicklungs_indikatoren : list string :=
  [ "erfahrungsauswertung"; "feedback_kultur"; "lernbereitschaft";
    "kreativitaetsfoerderung"; "experimentierfreudigkeit";
    "veraenderungsbereitschaft"; "anpassungsflexibilitaet";
    "umstrukturierungskompetenz"; "zukunftsgestaltung" ].

Definition systemische_indikatoren : list string :=
  [ "marktbeobachtung"; "trendfruchterkennung"; "stakeholder_dialog";
    "reaktionsgeschwindigkeit"; "aenderungsmanagement";
    "ressourcenflexibilitaet"; "krisenresistenz"; "ausfallsicherheit";
    "erneuerungsfaehigkeit" ].

(** Every indicator that some aggregator reads. *)
Definition indikatoren : list string :=
  management_indikatoren ++ ordnungs_indikatoren ++
  entwicklungs_indikatoren ++ systemische_indikatoren.

(** Two ratings mappings that agree on the keys [ks]. *)
Definition agree_on (ks : list string) (a b : gmap string Z) : Prop :=
  Forall (λ k, get a k = get b k) ks.

(** The ratings mapping that sets every indicator to [v]. *)
Definition uniform (v : Z) : gmap string Z :=
  list_to_map ((λ k, (k, v)) <$> indikatoren).

(** What the four aggregators return when every dimension score is [x] and
    the composite indices are [c]. *)
Definition all_scores_equal (a : gmap string Z) (x c : float) : Prop :=
  (∃ r, analysiere_management_perspektiven a = Some r ∧
     Management.scores r =
       [("normativ", x); ("strategisch", x); ("operativ", x)] ∧
     Management.balance r = c) ∧
  (∃ r, analysiere_ordnungsmomente a = Some r ∧
     Ordnung.scores r =
       [("kultur", x); ("strukturen", x); ("prozesse", x); ("technologien", x)] ∧
     Ordnung.kohärenz r = c) ∧
  (∃ r, analysiere_entwicklungsperspektiven a = Some r ∧
     Entwicklung.scores r =
       [("reflexion", x); ("innovation", x); ("transformation", x)]) ∧
  (∃ r, analysiere_systemische_eigenschaften a = Some r ∧
     Systemisch.umwelt_sensitivitaet r = x ∧
     Systemisch.anpassungs_faehigkeit r = x ∧
     Systemisch.widerstands_faehigkeit r = x).

(** The ratings of the scenario: the four normative indicators at 7, the
    four strategic and the four operational ones at 1. *)
Definition normativ_lastig : gmap string Z :=
  list_to_map
    [ ("wertekongruenz", 7%Z); ("sinnstiftung", 7%Z);
      ("identitaetsbeitrag", 7%Z); ("legitimitaet", 7%Z);
      ("wettbewerbsvorteil", 1%Z); ("marktrelevanz", 1%Z);
      ("ressourcenpassung", 1%Z); ("zukunftsfaehigkeit", 1%Z);
      ("prozesseffizienz", 1%Z); ("ressourcenoptimierung", 1%Z);
      ("qualitaetssicherung", 1%Z); ("skalierbarkeit", 1%Z) ].

End Vocabulary.

(** ** The application around the engine

    The enumerations, the two chart builders, the session state and the
    recommendations of the overall analysis.  The Streamlit and Plotly calls
    are left out; what the code computes and hands to them is kept. *)

(** *** Enumerations *)

Module StGallerManagementDimension.
Inductive t := NORMATIV | STRATEGISCH | OPERATIV.
Definition value (d : t) : string :=
  match d with
  | NORMATIV => "normativ"
  | STRATEGISCH => "strategisch"
  | OPERATIV => "operativ"
  end.
(** [list(StGallerManagementDimension)], in declaration order. *)
Definition members : list t := [NORMATIV; STRATEGISCH; OPERATIV].
End StGallerManagementDimension.

Module StGallerOrdnungsmoment.
Inductive t := KULTUR | STRUKTUREN | PROZESSE | TECHNOLOGIEN.
Definition value (d : t) : string :=
  match d with
  | KULTUR => "kultur"
  | STRUKTUREN => "strukturen"
  | PROZESSE => "prozesse"
  | TECHNOLOGIEN => "technologien"
  end.
Definition members : list t := [KULTUR; STRUKTUREN; PROZESSE; TECHNOLOGIEN].
End StGallerOrdnungsmoment.

Module StGallerEntwicklungsperspektive.
Inductive t := REFLEXION | INNOVATION | TRANSFORMATION.
Definition value (d : t) : string :=
  match d with
  | REFLEXION => "reflexion"
  | INNOVATION => "innovation"
  | TRANSFORMATION => "transformation"
  end.
Definition members : list t := [REFLEXION; INNOVATION; TRANSFORMATION].
End StGallerEntwicklungsperspektive.

(** *** Builtins on lists *)

Module PyList.

(** The loop of the builtin [min(xs)] on floats: the running minimum is
    replaced only by a strictly smaller value. *)
Fixpoint min_loop (best : float) (rest : list float) : float :=
  match rest with
  | [] => best
  | v :: rest' => if (v <? best)%float then min_loop v rest' else min_loop best rest'
  end.

(** [min(xs)]; [None] stands for the [ValueError] of an empty list. *)
Definition min (xs : list float) : option float :=
  match xs with
  | [] => None
  | x :: rest => Some (min_loop x rest)
  end.

End PyList.

(** *** Charts *)

(** The arguments that the radar chart hands to Plotly: one polar trace and
    the layout. *)
Module Radar.
Record t := {
  r : list float;
  theta : list string;
  fill : string;
  name : string;
  line_color : string;
  radialaxis_visible : bool;
  radialaxis_range : list Z;
  showlegend : bool;
  title : string
}.
End Radar.

(** [erstelle_radar_chart_perspektiven(ergebnis)]; [werte[0]] and
    [kategorien[0]] close the polygon. *)
Definition erstelle_radar_chart_perspektiven (ergebnis : StGallerAnalyseErgebnis)
    : option Radar.t :=
  let kategorien := ["Normativ"; "Strategisch"; "Operativ"] in
  let werte :=
    [ (normativ_score ergebnis / 7)%float;
      (strategisch_score ergebnis / 7)%float;
      (operativ_score ergebnis / 7)%float ] in
  werte_0 ← werte !! 0%nat;
  kategorien_0 ← kategorien !! 0%nat;
  Some {| Radar.r := werte ++ [werte_0];
          Radar.theta := kategorien ++ [kategorien_0];
          Radar.fill := "toself";
          Radar.name := "Management-Perspektiven";
          Radar.line_color := "blue";
          Radar.radialaxis_visible := true;
          Radar.radialaxis_range := [0%Z; 1%Z];
          Radar.showlegend := false;
          Radar.title := "Management-Perspektiven Balance" |}.

(** The arguments that the sunburst chart hands to Plotly (the colour
    palette, a constant of Plotly, is left out). *)
Module Sunburst.
Record t := {
  labels : list string;
  parents : list string;
  values : list float;
  branchvalues : string;
  title : string
}.
End Sunburst.

Definition erstelle_sunburst_chart_gesamt (ergebnis : StGallerAnalyseErgebnis)
    : Sunburst.t :=
  let labels :=
    [ "Gesamt"; "Management"; "Ordnung"; "Entwicklung"; "Systemisch";
      "Normativ"; "Strategisch"; "Operativ";
      "Kultur"; "Strukturen"; "Prozesse"; "Technologien";
      "Reflexion"; "Innovation"; "Transformation";
      "Umwelt"; "Anpassung"; "Resilienz" ] in
  let parents :=
    [ ""; "Gesamt"; "Gesamt"; "Gesamt"; "Gesamt";
      "Management"; "Management"; "Management";
      "Ordnung"; "Ordnung"; "Ordnung"; "Ordnung";
      "Entwicklung"; "Entwicklung"; "Entwicklung";
      "Systemisch"; "Systemisch"; "Systemisch" ] in
  let values :=
    [ 0%float;
      Py.np_mean [normativ_score ergebnis; strategisch_score ergebnis;
                  operativ_score ergebnis];
      Py.np_mean [kultur_score ergebnis; strukturen_score ergebnis;
                  prozesse_score ergebnis; technologien_score ergebnis];
      Py.np_mean [reflexions_fähigkeit ergebnis; innovations_fähigkeit ergebnis;
                  transformations_fähigkeit ergebnis];
      Py.np_mean [umwelt_sensitivität ergebnis; anpassungs_fähigkeit ergebnis;
                  widerstands_fähigkeit ergebnis];
      normativ_score ergebnis; strategisch_score ergebnis; operativ_score ergebnis;
      kultur_score ergebnis; strukturen_score ergebnis; prozesse_score ergebnis;
      technologien_score ergebnis;
      reflexions_fähigkeit ergebnis; innovations_fähigkeit ergebnis;
      transformations_fähigkeit ergebnis;
      umwelt_sensitivität ergebnis; anpassungs_fähigkeit ergebnis;
      widerstands_fähigkeit ergebnis ] in
  {| Sunburst.labels := labels;
     Sunburst.parents := parents;
     Sunburst.values := values;
     Sunburst.branchvalues := "total";
     Sunburst.title := "St. Galler Gesamtanalyse - Hierarchische Übersicht" |}.

(** *** Session state *)

(** What the application keeps in [st.session_state]: the ints of the
    sliders, the analyzer, the result of the overall analysis or [None];
    bools (which are ints for [isinstance]) and any other object. *)
Inductive SessionValue :=
  | SInt (z : Z)
  | SBool (b : bool)
  | SNone
  | SAnalyzer
  | SErgebnis (e : StGallerAnalyseErgebnis)
  | SOther.

Definition default_antworten : Py.dict Z :=
  [ ("wertekongruenz", 4%Z); ("sinnstiftung", 4%Z);
    ("identitaetsbeitrag", 4%Z); ("legitimitaet", 4%Z);
    ("wettbewerbsvorteil", 4%Z); ("marktrelevanz", 4%Z);
    ("ressourcenpassung", 4%Z); ("zukunftsfaehigkeit", 4%Z);
    ("prozesseffizienz", 4%Z); ("ressourcenoptimierung", 4%Z);
    ("qualitaetssicherung", 4%Z); ("skalierbarkeit", 4%Z);
    ("wertekonsens", 4%Z); ("verhaltensnormen", 4%Z);
    ("gemeinschaftsgefuehl", 4%Z);
    ("rollenklaerung", 4%Z); ("entscheidungskompetenz", 4%Z);
    ("koordinationsmechanismen", 4%Z);
    ("prozessstandardisierung", 4%Z); ("entscheidungsgeschwindigkeit", 4%Z);
    ("kontinuierliche_verbesserung", 4%Z);
    ("systemunterstuetzung", 4%Z); ("digitalisierungsgrad", 4%Z);
    ("datennutzung", 4%Z);
    ("erfahrungsauswertung", 4%Z); ("feedback_kultur", 4%Z);
    ("lernbereitschaft", 4%Z);
    ("kreativitaetsfoerderung", 4%Z); ("experimentierfreudigkeit", 4%Z);
    ("veraenderungsbereitschaft", 4%Z);
    ("anpassungsflexibilitaet", 4%Z); ("umstrukturierungskompetenz", 4%Z);
    ("zukunftsgestaltung", 4%Z);
    ("marktbeobachtung", 4%Z); ("trendfruchterkennung", 4%Z);
    ("stakeholder_dialog", 4%Z);
    ("reaktionsgeschwindigkeit", 4%Z); ("aenderungsmanagement", 4%Z);
    ("ressourcenflexibilitaet", 4%Z);
    ("krisenresistenz", 4%Z); ("ausfallsicherheit", 4%Z);
    ("erneuerungsfaehigkeit", 4%Z) ].

(** [if key not in st.session_state: st.session_state[key] = value]. *)
Definition set_if_absent (key : string) (value : SessionValue)
    (state : gmap string SessionValue) : gmap string SessionValue :=
  match state !! key with
  | Some _ => state
  | None => <[key := value]> state
  end.

(** [init_session_state()], as a function of the session state. *)
Definition init_session_state (state : gmap string SessionValue)
    : gmap string SessionValue :=
  let state := set_if_absent "st_galler_analyzer" SAnalyzer state in
  let state :=
    foldl (λ state item, set_if_absent item.1 (SInt item.2) state)
      state default_antworten in
  set_if_absent "analyse_ergebnis" SNone state.

(** [isinstance(value, int)], with the int that the value is. *)
Definition as_int (value : SessionValue) : option Z :=
  match value with
  | SInt z => Some z
  | SBool b => Some (Z.b2z b)
  | _ => None
  end.

(** The ratings that [durchfuehre_gesamtanalyse] collects from the session:
    the int entries, the key 'analyse_ergebnis' apart. *)
Definition sammle_antworten (state : gmap string SessionValue) : gmap string Z :=
  omap as_int (delete "analyse_ergebnis" state).

(** The button of the overall analysis: the result is stored in the session.
    [None] when the session holds no analyzer to call. *)
Definition vollstaendige_analyse (state : gmap string SessionValue)
    : option (gmap string SessionValue) :=
  let antworten := sammle_antworten state in
  match state !! "st_galler_analyzer" with
  | Some SAnalyzer =>
      ergebnis ← durchfuehr_komplette_analyse antworten;
      Some (<["analyse_ergebnis" := SErgebnis ergebnis]> state)
  | _ => None
  end.

(** The reset button: every key but 'st_galler_analyzer' is deleted (the
    rerun that follows starts with [init_session_state]). *)
Definition analyse_zuruecksetzen (state : gmap string SessionValue)
    : gmap string SessionValue :=
  filter (λ item, item.1 = "st_galler_analyzer") state.

(** *** Recommendations *)

(** The list [empfehlungen] that [durchfuehre_gesamtanalyse] builds from the
    result; [None] stands for the [ValueError] of [min]. *)
Definition handlungsempfehlungen (ergebnis : StGallerAnalyseErgebnis)
    : option (list string) :=
  let empfehlungen := [] in
  let empfehlungen :=
    if (perspektiven_balance ergebnis <? 0.7)%float
    then empfehlungen ++ ["**Management-Balance verbessern:** Arbeiten Sie an der Ausgewogenheit der drei Perspektiven"]
    else empfehlungen in
  let empfehlungen :=
    if (normativ_score ergebnis <? 4)%float
    then empfehlungen ++ ["**Normative Perspektive stärken:** Fokus auf Wertekongruenz und Sinnstiftung"]
    else empfehlungen in
  let empfehlungen :=
    if (strategisch_score ergebnis <? 4)%float
    then empfehlungen ++ ["**Strategische Perspektive stärken:** Verbesserung der Wettbewerbspositionierung"]
    else empfehlungen in
  let empfehlungen :=
    if (operativ_score ergebnis <? 4)%float
    then empfehlungen ++ ["**Operative Perspektive stärken:** Optimierung von Prozessen und Ressourceneinsatz"]
    else empfehlungen in
  let empfehlungen :=
    if (ordnungsmomente_kohärenz ergebnis <? 0.6)%float
    then empfehlungen ++ ["**Ordnungs-Kohärenz erhöhen:** Bessere Abstimmung zwischen Kultur, Strukturen, Prozessen und Technologien"]
    else empfehlungen in
  min_ordnung ←
    PyList.min [ kultur_score ergebnis; strukturen_score ergebnis;
                 prozesse_score ergebnis; technologien_score ergebnis ];
  Some
    (if (kultur_score ergebnis =? min_ordnung)%float
     then empfehlungen ++ ["**Kultur entwickeln:** Gemeinsame Werte und Verhaltensnormen stärken"]
     else if (strukturen_score ergebnis =? min_ordnung)%float
     then empfehlungen ++ ["**Strukturen optimieren:** Rollenklarheit und Entscheidungskompetenzen verbessern"]
     else if (prozesse_score ergebnis =? min_ordnung)%float
     then empfehlungen ++ ["**Prozesse standardisieren:** Arbeitsabläufe und Entscheidungsgeschwindigkeit optimieren"]
     else if (technologien_score ergebnis =? min_ordnung)%float
     then empfehlungen ++ ["**Technologien modernisieren:** Systemunterstützung und Digitalisierung vorantreiben"]
     else empfehlungen).

(** *** Vocabulary of the statements about the application *)

(** The recommendation that names an order element. *)
Definition ordnungs_empfehlung (element : string) : option string :=
  if String.eqb element "kultur"
  then Some "**Kultur entwickeln:** Gemeinsame Werte und Verhaltensnormen stärken"
  else if String.eqb element "strukturen"
  then Some "**Strukturen optimieren:** Rollenklarheit und Entscheidungskompetenzen verbessern"
  else if String.eqb element "prozesse"
  then Some "**Prozesse standardisieren:** Arbeitsabläufe und Entscheidungsgeschwindigkeit optimieren"
  else if String.eqb element "technologien"
  then Some "**Technologien modernisieren:** Systemunterstützung und Digitalisierung vorantreiben"
  else None.

(** The values of the sunburst nodes whose parent is [parent]. *)
Definition sunburst_children (fig : Sunburst.t) (parent : string) : list float :=
  (filter (λ item, item.1 = parent)
     (zip (Sunburst.parents fig) (Sunburst.values fig))).*2.

(** The value of the sunburst node labelled [label]. *)
Definition sunburst_value (fig : Sunburst.t) (label : string) : option float :=
  Py.dict_get (zip (Sunburst.labels fig) (Sunburst.values fig)) label.

(** A float between two ints. *)
Definition between (lo hi : Z) (x : float) : bool :=
  (Py.float_of_int lo <=? x)%float && (x <=? Py.float_of_int hi)%float.

(** Every indicator of [ks] reads as a rating between [lo] and [hi] (an
    absent indicator reads as 0). *)
Definition rated_within (lo hi : Z) (ks : list string) (a : gmap string Z) : Prop :=
  Forall (λ k, (lo ≤ get a k ≤ hi)%Z) ks.

(** Every indicator of [ks] reads as an int that NumPy stores as int64 and
    that [Py.float_of_int] casts as the code does: -2^63 < z < 2^63. *)
Definition cast_range (ks : list string) (a : gmap string Z) : Prop :=
  Forall (λ k, (- 2 ^ 63 < get a k < 2 ^ 63)%Z) ks.

(** Example ratings: every indicator at 4, but datennutzung at 1. *)
Definition datennutzung_schwach : gmap string Z :=
  <["datennutzung" := 1%Z]> (uniform 4).

(** Example ratings: every indicator at 4, but experimentierfreudigkeit
    at 7. *)
Definition experimentierfreudig : gmap string Z :=
  <["experimentierfreudigkeit" := 7%Z]> (uniform 4).

(** The mean of [n] ratings whose sum is [s], when the sum is exact. *)
Definition mean_of_sum (n s : Z) : float :=
  (Py.float_of_int s / Py.float_of_int n)%float.

(** The session holds no object but the analyzer under 'st_galler_analyzer'. *)
Definition analyzer_ok (state : gmap string SessionValue) : Prop :=
  ∀ v, state !! "st_galler_analyzer" = Some v → v = SAnalyzer.

(** ** The order of binary64 values

    [SFcompare] orders the values that are not NaN: infinities at both ends,
    the two zeros equal, and finite values by sign, exponent and mantissa.
    The lemmas below carry that order to the primitive comparisons. *)

Module F64.
Import SF.

Local Open Scope Z_scope.

Lemma SFcompare_swap x y :
  SFcompare y x = option_map CompOpp (SFcompare x y).
Proof.
  destruct x as [sx|sx| |sx mx ex], y as [sy|sy| |sy my ey]; simpl;
    try reflexivity;
    try (destruct sx; reflexivity); try (destruct sy; reflexivity);
    try (destruct sx, sy; reflexivity).
  change (Pos.compare_cont Eq my mx) with (Pos.compare my mx).
  change (Pos.compare_cont Eq mx my) with (Pos.compare mx my).
  rewrite (Z.compare_antisym ex ey), (Pos.compare_antisym mx my).
  destruct sx, sy; simpl; try reflexivity;
    destruct (ex ?= ey); simpl; try reflexivity;
    destruct (mx ?= my)%positive; reflexivity.
Qed.

Lemma SFcompare_refl x : x ≠ S754_nan → SFcompare x x = Some Eq.
Proof.
  destruct x as [s|s| |s m e]; simpl; intros Hx; try congruence.
  - destruct s; reflexivity.
  - change (Pos.compare_cont Eq m m) with (Pos.compare m m).
    rewrite Z.compare_refl, Pos.compare_refl. destruct s; reflexivity.
Qed.

Lemma SFcompare_total x y :
  x ≠ S754_nan → y ≠ S754_nan → is_Some (SFcompare x y).
Proof.
  destruct x, y; simpl; intros Hx Hy; try congruence; eauto.
Qed.

(** Case analysis on every exponent and mantissa comparison in sight. *)
Ltac cmp_cases :=
  repeat match goal with
    | H : context [Z.compare ?a ?b] |- _ => destruct (Z.compare_spec a b)
    | |- context [Z.compare ?a ?b] => destruct (Z.compare_spec a b)
    | H : context [Pos.compare ?a ?b] |- _ => destruct (Pos.compare_spec a b)
    | |- context [Pos.compare ?a ?b] => destruct (Pos.compare_spec a b)
    end.

Lemma SFcompare_trans x y z c1 c2 :
  SFcompare x y = Some c1 → SFcompare y z = Some c2 →
  is_lt_or_eq c1 = true → is_lt_or_eq c2 = true →
  SFcompare x z = Some (seq_cmp c1 c2).
Proof.
  destruct x as [sx|sx| |sx mx ex], y as [sy|sy| |sy my ey],
           z as [sz|sz| |sz mz ez]; simpl;
    intros H1 H2 L1 L2; try discriminate;
    repeat match goal with b : bool |- _ => destruct b end;
    change (PosDef.Pos.compare_cont Eq) with Pos.compare in *;
    cmp_cases; simplify_eq; simpl in *;
    try discriminate; try reflexivity; try lia.
Qed.

(** *** The primitive comparisons *)

Local Open Scope float_scope.

Lemma is_nan_false x : is_nan x = false ↔ Prim2SF x ≠ S754_nan.
Proof.
  unfold is_nan. rewrite FloatAxioms.eqb_spec. unfold SFeqb. split.
  - intros H Hn. rewrite Hn in H. discriminate.
  - intros H. rewrite (SFcompare_refl _ H). reflexivity.
Qed.

Lemma ltb_cmp x y : (x <? y) = true ↔ cmp x y = Some Lt.
Proof.
  rewrite FloatAxioms.ltb_spec. unfold SFltb, cmp.
  destruct (SFcompare _ _) as [[]|]; split; congruence.
Qed.

Lemma leb_cmp x y : (x <=? y) = true ↔ cmp x y = Some Lt ∨ cmp x y = Some Eq.
Proof.
  rewrite FloatAxioms.leb_spec. unfold SFleb, cmp.
  destruct (SFcompare _ _) as [[]|]; split; intros; try tauto;
    try congruence; destruct H; congruence.
Qed.

Lemma eqb_cmp x y : (x =? y) = true ↔ cmp x y = Some Eq.
Proof.
  rewrite FloatAxioms.eqb_spec. unfold SFeqb, cmp.
  destruct (SFcompare _ _) as [[]|]; split; congruence.
Qed.

Lemma cmp_swap x y : cmp y x = option_map CompOpp (cmp x y).
Proof. apply SFcompare_swap. Qed.

Lemma cmp_total x y :
  is_nan x = false → is_nan y = false → is_Some (cmp x y).
Proof.
  rewrite !is_nan_false. apply SFcompare_total.
Qed.

Lemma ltb_irrefl x : (x <? x) = false.
Proof.
  apply not_true_is_false. rewrite ltb_cmp. intros H.
  pose proof (cmp_swap x x) as Hs. rewrite H in Hs. discriminate.
Qed.

Lemma ltb_asym x y : (x <? y) = true → (y <? x) = false.
Proof.
  rewrite ltb_cmp. intros H. apply not_true_is_false. rewrite ltb_cmp.
  rewrite cmp_swap, H. discriminate.
Qed.

Lemma eqb_not_ltb x y : (x =? y) = true → (y <? x) = false.
Proof.
  rewrite eqb_cmp. intros H. apply not_true_is_false. rewrite ltb_cmp.
  rewrite cmp_swap, H. discriminate.
Qed.

Lemma ltb_leb x y : (x <? y) = true → (x <=? y) = true.
Proof. rewrite ltb_cmp, leb_cmp. tauto. Qed.

Lemma leb_refl x : is_nan x = false → (x <=? x) = true.
Proof.
  rewrite is_nan_false, leb_cmp. intros H. right. apply SFcompare_refl, H.
Qed.

Lemma not_ltb_leb x y :
  is_nan x = false → is_nan y = false → (x <? y) = false → (y <=? x) = true.
Proof.
  intros Hx Hy H. apply not_true_iff_false in H. rewrite ltb_cmp in H.
  rewrite leb_cmp, cmp_swap.
  destruct (cmp_total x y Hx Hy) as [[] Hc]; rewrite Hc; simpl; tauto.
Qed.

Lemma leb_not_ltb x y : (x <=? y) = true → (y <? x) = false.
Proof.
  rewrite leb_cmp. intros H. apply not_true_is_false. rewrite ltb_cmp, cmp_swap.
  destruct H as [-> | ->]; discriminate.
Qed.

Lemma cmp_trans x y z c1 c2 :
  cmp x y = Some c1 → cmp y z = Some c2 →
  is_lt_or_eq c1 = true → is_lt_or_eq c2 = true →
  cmp x z = Some (seq_cmp c1 c2).
Proof. apply SFcompare_trans. Qed.

Lemma leb_trans x y z :
  (x <=? y) = true → (y <=? z) = true → (x <=? z) = true.
Proof.
  rewrite !leb_cmp. intros [H1|H1] [H2|H2];
    rewrite (cmp_trans _ _ _ _ _ H1 H2 eq_refl eq_refl); simpl; tauto.
Qed.

Lemma leb_ltb_trans x y z :
  (x <=? y) = true → (y <? z) = true → (x <? z) = true.
Proof.
  rewrite leb_cmp, !ltb_cmp. intros [H1|H1] H2;
    rewrite (cmp_trans _ _ _ _ _ H1 H2 eq_refl eq_refl); reflexivity.
Qed.

Lemma ltb_leb_trans x y z :
  (x <? y) = true → (y <=? z) = true → (x <? z) = true.
Proof.
  rewrite leb_cmp, !ltb_cmp. intros H1 [H2|H2];
    rewrite (cmp_trans _ _ _ _ _ H1 H2 eq_refl eq_refl); reflexivity.
Qed.

(** *** Rounding

    [binary_round_aux] has a NaN branch for a negative mantissa; it is not
    taken, because shifting and rounding keep a mantissa non-negative.
    The same walk bounds the exponent of the result, which keeps the
    float64 image of a 63-bit integer finite. *)

Local Open Scope Z_scope.

Lemma Zdigits2_nonneg m : 0 ≤ Zdigits2 m.
Proof. destruct m; simpl; lia. Qed.

Lemma digits2_pos_succ p :
  Zpos (digits2_pos (Pos.succ p)) ≤ Zpos (digits2_pos p) + 1.
Proof. induction p; simpl; lia. Qed.

Lemma digits2_pos_iter_xO m d :
  Zpos (digits2_pos (Pos.iter xO m d)) = Zpos (digits2_pos m) + Zpos d.
Proof.
  induction d using Pos.peano_ind.
  - simpl. lia.
  - rewrite Pos.iter_succ. simpl. lia.
Qed.

Lemma digits2_pos_bound p k :
  (p < 2 ^ k)%positive → Zpos (digits2_pos p) ≤ Zpos k.
Proof.
  revert k. induction p; intros k Hp; simpl; [| |lia].
  all: destruct (Pos.eq_dec k 1%positive) as [->|Hk]; [simpl in Hp; lia|].
  all: assert (Hs : k = Pos.succ (Pos.pred k)) by (rewrite Pos.succ_pred; auto).
  all: rewrite Hs, Pos.pow_succ_r in Hp; specialize (IHp (Pos.pred k)); lia.
Qed.

Lemma shr_1_bounds mrs :
  0 ≤ shr_m mrs →
  0 ≤ shr_m (shr_1 mrs) ∧ Zdigits2 (shr_m (shr_1 mrs)) ≤ Zdigits2 (shr_m mrs).
Proof.
  destruct mrs as [[|[p|p|]|p] r s]; simpl; lia.
Qed.

Lemma iter_pos_inv {A} (P : A → Prop) (f : A → A) :
  (∀ x, P x → P (f x)) → ∀ n x, P x → P (SpecFloat.iter_pos f n x).
Proof.
  intros Hf. induction n; intros x Hx; simpl; auto.
Qed.

Lemma shr_m_of_loc m l : shr_m (shr_record_of_loc m l) = m.
Proof. destruct l as [|[]]; reflexivity. Qed.

Lemma shr_fexp_bounds m e l mrs e' :
  0 ≤ m → shr_fexp prec emax m e l = (mrs, e') →
  0 ≤ shr_m mrs ∧ Zdigits2 (shr_m mrs) ≤ Zdigits2 m ∧
  (e' = e ∨ e' = fexp prec emax (Zdigits2 m + e)).
Proof.
  intros Hm. unfold shr_fexp, shr.
  destruct (fexp prec emax (Zdigits2 m + e) - e) as [|n|n] eqn:Hn;
    intros [= <- <-]; rewrite ?shr_m_of_loc; try lia.
  pose proof (iter_pos_inv
    (λ r, 0 ≤ shr_m r ∧ Zdigits2 (shr_m r) ≤ Zdigits2 m) shr_1) as Hinv.
  destruct (Hinv (λ r Hr, let (H1, H2) := Hr in
              let (H3, H4) := shr_1_bounds r H1 in
              conj H3 (Z.le_trans _ _ _ H4 H2)) n (shr_record_of_loc m l))
    as [H1 H2]; [rewrite shr_m_of_loc; lia|].
  repeat split; auto. right. lia.
Qed.

Lemma round_nearest_even_bounds m l :
  0 ≤ m →
  0 ≤ round_nearest_even m l ∧
  Zdigits2 (round_nearest_even m l) ≤ Zdigits2 m + 1.
Proof.
  intros Hm.
  assert (Hs : 0 ≤ m + 1 ∧ Zdigits2 (m + 1) ≤ Zdigits2 m + 1).
  { destruct m as [|p|p]; [simpl; lia| |lia].
    split; [lia|]. change (Z.pos p + 1) with (Z.pos (p + 1)).
    rewrite Pos.add_1_r. apply digits2_pos_succ. }
  unfold round_nearest_even. destruct l as [|[]]; try destruct (Z.even m);
    try tauto; lia.
Qed.

Lemma binary_round_aux_not_nan sx mx ex lx :
  0 ≤ mx → binary_round_aux prec emax sx mx ex lx ≠ S754_nan.
Proof.
  intros Hm. unfold binary_round_aux.
  destruct (shr_fexp prec emax mx ex lx) as [mrs' e'] eqn:H1.
  destruct (shr_fexp_bounds _ _ _ _ _ Hm H1) as (Hm' & _ & _).
  destruct (round_nearest_even_bounds (shr_m mrs') (loc_of_shr_record mrs') Hm')
    as [Hr _].
  destruct (shr_fexp prec emax _ e' loc_Exact) as [mrs'' e''] eqn:H2.
  destruct (shr_fexp_bounds _ _ _ _ _ Hr H2) as (Hm'' & _ & _).
  destruct (shr_m mrs''); [discriminate| |lia].
  destruct (e'' <=? emax - prec); discriminate.
Qed.

Lemma binary_round_aux_finite sx mx ex lx :
  0 ≤ mx → Zdigits2 mx ≤ 200 → ex ≤ 200 →
  finite_class (binary_round_aux prec emax sx mx ex lx) = true.
Proof.
  intros Hm Hd He. unfold binary_round_aux.
  destruct (shr_fexp prec emax mx ex lx) as [mrs' e'] eqn:H1.
  destruct (shr_fexp_bounds _ _ _ _ _ Hm H1) as (Hm' & Hd' & He').
  destruct (round_nearest_even_bounds (shr_m mrs') (loc_of_shr_record mrs') Hm')
    as [Hr Hrd].
  destruct (shr_fexp prec emax _ e' loc_Exact) as [mrs'' e''] eqn:H2.
  destruct (shr_fexp_bounds _ _ _ _ _ Hr H2) as (Hm'' & Hd'' & He'').
  pose proof (Zdigits2_nonneg mx). pose proof (Zdigits2_nonneg (shr_m mrs')).
  pose proof (Zdigits2_nonneg
    (round_nearest_even (shr_m mrs') (loc_of_shr_record mrs'))).
  unfold fexp, emin, prec, emax in *.
  destruct (shr_m mrs''); [reflexivity| |lia].
  destruct (Z.leb_spec e'' (1024 - 53)); [reflexivity|lia].
Qed.

Lemma binary_normalize_not_nan m e szero :
  binary_normalize prec emax m e szero ≠ S754_nan.
Proof.
  destruct m as [|p|p]; simpl; [discriminate| |];
    unfold binary_round; destruct (shl_align _ _ _);
    apply binary_round_aux_not_nan; lia.
Qed.

Lemma binary_normalize_finite m :
  0 ≤ m < 2 ^ 63 →
  finite_class (binary_normalize prec emax m 0 false) = true.
Proof.
  intros Hm. destruct m as [|p|p]; [reflexivity| |lia]. simpl.
  assert (Hp : Zpos (digits2_pos p) ≤ 63).
  { apply (digits2_pos_bound p 63). lia. }
  unfold binary_round, shl_align.
  destruct (fexp prec emax (Z.pos (digits2_pos p) + 0) - 0) as [|n|n] eqn:Hn;
    unfold fexp, emin, prec, emax in Hn.
  - apply binary_round_aux_finite; simpl; lia.
  - apply binary_round_aux_finite; simpl; lia.
  - apply binary_round_aux_finite; simpl; try lia.
    + rewrite digits2_pos_iter_xO. lia.
    + unfold fexp, emin, prec, emax. lia.
Qed.

(** *** Sums and quotients that are never NaN *)

Lemma SFadd_not_nan x y :
  x ≠ S754_nan → y ≠ S754_nan →
  finite_class x = true ∨ finite_class y = true →
  SF64add x y ≠ S754_nan.
Proof.
  unfold SF64add.
  destruct x as [sx|sx| |sx mx ex], y as [sy|sy| |sy my ey]; simpl;
    intros Hx Hy Hf; try congruence;
    try (destruct sx, sy; discriminate);
    try (destruct Hf; discriminate).
  apply binary_normalize_not_nan.
Qed.

Lemma SFdiv_not_nan x sy my ey :
  x ≠ S754_nan → SF64div x (S754_finite sy my ey) ≠ S754_nan.
Proof.
  unfold SF64div. destruct x as [sx|sx| |sx mx ex]; simpl;
    intros Hx; try congruence.
  unfold SFdiv_core_binary.
  set (m' := match _ - _ with 0 => Z.pos mx | Z.pos _ => _ | Z.neg _ => 0 end).
  assert (Hm' : 0 ≤ m').
  { subst m'. destruct (_ - _); [lia| |lia]. apply Z.shiftl_nonneg. lia. }
  pose proof (Z_div_mod m' (Z.pos my) eq_refl) as Hq.
  destruct (Z.div_eucl m' (Z.pos my)) as [q r].
  apply binary_round_aux_not_nan. nia.
Qed.

Lemma SFopp_finite x : finite_class (SFopp x) = finite_class x.
Proof. destruct x; reflexivity. Qed.

Lemma finite_class_not_nan x : finite_class x = true → x ≠ S754_nan.
Proof. destruct x; simpl; congruence. Qed.

Local Open Scope float_scope.

Lemma of_uint63_finite n : finite_class (Prim2SF (of_uint63 n)) = true.
Proof.
  rewrite of_uint63_spec. apply binary_normalize_finite.
  apply Uint63.to_Z_bounded.
Qed.

Lemma float_of_int_finite z :
  finite_class (Prim2SF (Py.float_of_int z)) = true.
Proof.
  unfold Py.float_of_int. destruct (z <? 0)%Z.
  - rewrite opp_spec, SFopp_finite. apply of_uint63_finite.
  - apply of_uint63_finite.
Qed.

Lemma fold_add_not_nan xs : ∀ acc,
  Forall (λ x, finite_class (Prim2SF x) = true) xs →
  Prim2SF acc ≠ S754_nan →
  Prim2SF (fold_left PrimFloat.add xs acc) ≠ S754_nan.
Proof.
  induction xs as [|x xs IH]; intros acc Hxs Hacc; simpl; [exact Hacc|].
  apply Forall_cons in Hxs as [Hx Hxs]. apply IH; [exact Hxs|].
  rewrite add_spec. apply SFadd_not_nan; auto using finite_class_not_nan.
Qed.

(** The mean of a list of ints is never NaN when the divisor is a finite,
    non-zero float: every list of one to 2^63 - 1 elements; the aggregators
    use three and four. *)
Lemma np_mean_int_not_nan xs s m e :
  Prim2SF (Py.float_of_len xs) = S754_finite s m e →
  is_nan (Py.np_mean_int xs) = false.
Proof.
  intros Hlen. apply is_nan_false.
  unfold Py.np_mean_int, Py.np_mean, Py.np_sum, Py.float_of_len in *.
  rewrite div_spec, length_fmap, Hlen.
  apply SFdiv_not_nan, fold_add_not_nan; [|discriminate].
  apply Forall_fmap, Forall_forall. intros z _. apply float_of_int_finite.
Qed.

End F64.

(** ** The benchmark comparator *)

Section Comparator.
Local Open Scope float_scope.

(** The optimum is the registered one, or 0.7. *)
Lemma optimaler_benchmark_lookup scores key v :
  Vergleich.optimaler_benchmark (_vergleiche_mit_benchmarks scores key v) =
  default 0.7 (Benchmark.optimal <$> empirische_benchmarks !! key).
Proof. reflexivity. Qed.

(** The table registers three keys; every other key is absent. *)
Lemma empirische_benchmarks_absent key :
  empirische_benchmarks !! key = None ↔
  key ≠ "perspektiven_balance" ∧ key ≠ "ordnungsmomente_kohärenz" ∧
  key ≠ "umwelt_sensitivität".
Proof.
  unfold empirische_benchmarks, _lade_empirische_benchmarks.
  rewrite !lookup_insert_None, lookup_empty. intuition congruence.
Qed.

(** C10: the comparison record does not depend on the scores mapping passed
    as the first argument: for any two scores mappings, the same key and the
    same value give the same record. *)
Theorem vergleich_independent_of_scores
    (scores1 scores2 : Py.dict float) (key : string) (v : float) :
  _vergleiche_mit_benchmarks scores1 key v =
  _vergleiche_mit_benchmarks scores2 key v.
Proof. reflexivity. Qed.

(** C4: for every value and key, the deviation is the value minus the
    optimum; the verdict is "überdurchschnittlich" (above) exactly when the
    value is strictly greater than the optimum and "unterdurchschnittlich"
    (below) otherwise; a value equal to the optimum is below. *)
Theorem vergleich_deviation_and_verdict
    (scores : Py.dict float) (key : string) (v : float) :
  let r := _vergleiche_mit_benchmarks scores key v in
  Vergleich.aktueller_wert r = v ∧
  Vergleich.abweichung r = v - Vergleich.optimaler_benchmark r ∧
  (Vergleich.interpretation r = "überdurchschnittlich" ↔
     (Vergleich.optimaler_benchmark r <? v) = true) ∧
  (Vergleich.interpretation r = "unterdurchschnittlich" ↔
     (Vergleich.optimaler_benchmark r <? v) = false) ∧
  ((v =? Vergleich.optimaler_benchmark r) = true →
     Vergleich.interpretation r = "unterdurchschnittlich").
Proof.
  simpl. set (o := default 0.7 _).
  assert (Hv : ∀ b : bool,
    ((if b then "überdurchschnittlich" else "unterdurchschnittlich")
       = "überdurchschnittlich" ↔ b = true) ∧
    ((if b then "überdurchschnittlich" else "unterdurchschnittlich")
       = "unterdurchschnittlich" ↔ b = false)).
  { intros []; split; split; intros; congruence. }
  repeat split; try apply Hv.
  intros Heq. apply Hv. apply F64.eqb_not_ltb, Heq.
Qed.

(** C3: for a key that is not in the benchmark table the comparator returns
    (it is a total function, nothing is raised) the optimum 0.7, the
    deviation value - 0.7 and empty source and finding strings.  For the key
    "foo" and the value 0.9 the optimum is 0.7, the verdict is above, the
    strings are empty and the deviation is the binary64 difference
    0.9 - 0.7, which is 0.2 to within 1e-15. *)
Theorem vergleich_unregistered_key
    (scores : Py.dict float) (key : string) (v : float) :
  empirische_benchmarks !! key = None →
  _vergleiche_mit_benchmarks scores key v =
    {| Vergleich.aktueller_wert := v;
       Vergleich.optimaler_benchmark := 0.7;
       Vergleich.abweichung := v - 0.7;
       Vergleich.interpretation :=
         if 0.7 <? v then "überdurchschnittlich" else "unterdurchschnittlich";
       Vergleich.studie := "";
       Vergleich.empirischer_befund := "" |} ∧
  empirische_benchmarks !! "foo" = None ∧
  _vergleiche_mit_benchmarks scores "foo" 0.9 =
    {| Vergleich.aktueller_wert := 0.9;
       Vergleich.optimaler_benchmark := 0.7;
       Vergleich.abweichung := 0.9 - 0.7;
       Vergleich.interpretation := "überdurchschnittlich";
       Vergleich.studie := "";
       Vergleich.empirischer_befund := "" |} ∧
  (abs ((0.9 - 0.7) - 0.2) <? 1e-15) = true.
Proof.
  intros Hkey. split; [|split; [|split]].
  - unfold _vergleiche_mit_benchmarks. rewrite Hkey. reflexivity.
  - vm_compute. reflexivity.
  - vm_compute. reflexivity.
  - vm_compute. reflexivity.
Qed.

Lemma vergleich_unregistered_key_witness :
  empirische_benchmarks !! "foo" = None ∧
  _vergleiche_mit_benchmarks [] "foo" 0.9 =
    {| Vergleich.aktueller_wert := 0.9;
       Vergleich.optimaler_benchmark := 0.7;
       Vergleich.abweichung := 0.9 - 0.7;
       Vergleich.interpretation :=
         if 0.7 <? 0.9 then "überdurchschnittlich" else "unterdurchschnittlich";
       Vergleich.studie := "";
       Vergleich.empirischer_befund := "" |}.
Proof.
  assert (H : empirische_benchmarks !! "foo" = None) by (vm_compute; reflexivity).
  split; [exact H|].
  exact (proj1 (vergleich_unregistered_key [] "foo" 0.9 H)).
Defined.

End Comparator.

(** ** Selection by [max] and [min] *)

Section Selection.
Local Open Scope float_scope.

Lemma max_loop_first rest : ∀ pre best mid,
  is_nan best.2 = false → no_nan rest →
  Forall (λ p, (p.2 <? best.2) = true) pre →
  Forall (λ p, (p.2 <=? best.2) = true) mid →
  ∃ pre' post',
    pre ++ best :: mid ++ rest = pre' ++ Py.max_loop best rest :: post' ∧
    Forall (λ p, (p.2 <? (Py.max_loop best rest).2) = true) pre' ∧
    Forall (λ p, (p.2 <=? (Py.max_loop best rest).2) = true) post'.
Proof.
  induction rest as [|[k v] rest IH]; intros pre best mid Hb Hr Hpre Hmid.
  - exists pre, mid. rewrite app_nil_r. auto.
  - apply Forall_cons in Hr as [Hv Hr]. simpl in Hv |- *.
    destruct (best.2 <? v) eqn:Hlt.
    + destruct (IH (pre ++ best :: mid) (k, v) [] Hv Hr) as (pre' & post' & E & H1 & H2).
      * apply Forall_app; split; [|apply Forall_cons; split].
        -- eapply Forall_impl; [exact Hpre|]. intros p Hp.
           eapply F64.ltb_leb_trans; [exact Hp|]. apply F64.ltb_leb, Hlt.
        -- exact Hlt.
        -- eapply Forall_impl; [exact Hmid|]. intros p Hp.
           eapply F64.leb_ltb_trans; [exact Hp|exact Hlt].
      * constructor.
      * exists pre', post'. split; [|auto].
        rewrite <- E. simpl. rewrite <- app_assoc. reflexivity.
    + destruct (IH pre best (mid ++ [(k, v)]) Hb Hr Hpre) as (pre' & post' & E & H1 & H2).
      * apply Forall_app; split; [exact Hmid|]. apply Forall_singleton.
        apply F64.not_ltb_leb; auto.
      * exists pre', post'. split; [|auto].
        rewrite <- E, <- app_assoc. reflexivity.
Qed.

Lemma min_loop_first rest : ∀ pre best mid,
  is_nan best.2 = false → no_nan rest →
  Forall (λ p, (best.2 <? p.2) = true) pre →
  Forall (λ p, (best.2 <=? p.2) = true) mid →
  ∃ pre' post',
    pre ++ best :: mid ++ rest = pre' ++ Py.min_loop best rest :: post' ∧
    Forall (λ p, ((Py.min_loop best rest).2 <? p.2) = true) pre' ∧
    Forall (λ p, ((Py.min_loop best rest).2 <=? p.2) = true) post'.
Proof.
  induction rest as [|[k v] rest IH]; intros pre best mid Hb Hr Hpre Hmid.
  - exists pre, mid. rewrite app_nil_r. auto.
  - apply Forall_cons in Hr as [Hv Hr]. simpl in Hv |- *.
    destruct (v <? best.2) eqn:Hlt.
    + destruct (IH (pre ++ best :: mid) (k, v) [] Hv Hr) as (pre' & post' & E & H1 & H2).
      * apply Forall_app; split; [|apply Forall_cons; split].
        -- eapply Forall_impl; [exact Hpre|]. intros p Hp.
           eapply F64.ltb_leb_trans; [exact Hlt|]. apply F64.ltb_leb, Hp.
        -- exact Hlt.
        -- eapply Forall_impl; [exact Hmid|]. intros p Hp.
           eapply F64.ltb_leb_trans; [exact Hlt|exact Hp].
      * constructor.
      * exists pre', post'. split; [|auto].
        rewrite <- E. simpl. rewrite <- app_assoc. reflexivity.
    + destruct (IH pre best (mid ++ [(k, v)]) Hb Hr Hpre) as (pre' & post' & E & H1 & H2).
      * apply Forall_app; split; [exact Hmid|]. apply Forall_singleton.
        apply F64.not_ltb_leb; auto.
      * exists pre', post'. split; [|auto].
        rewrite <- E, <- app_assoc. reflexivity.
Qed.

(** On a dict without NaN, [max] selects the first key that attains the
    maximum, and [min] the first key that attains the minimum. *)
Lemma max_key_first d k : no_nan d → Py.max_key d = Some k → first_max d k.
Proof.
  destruct d as [|item rest]; [discriminate|]. intros Hd [= <-].
  apply Forall_cons in Hd as [Hi Hr].
  destruct (max_loop_first rest [] item [] Hi Hr) as (pre & post & E & H1 & H2);
    [constructor..|].
  destruct (Py.max_loop item rest) as [k v]. exists pre, v, post. auto.
Qed.

Lemma min_key_first d k : no_nan d → Py.min_key d = Some k → first_min d k.
Proof.
  destruct d as [|item rest]; [discriminate|]. intros Hd [= <-].
  apply Forall_cons in Hd as [Hi Hr].
  destruct (min_loop_first rest [] item [] Hi Hr) as (pre & post & E & H1 & H2);
    [constructor..|].
  destruct (Py.min_loop item rest) as [k v]. exists pre, v, post. auto.
Qed.

(** The key selected is a key of the dict, whatever the comparisons say. *)
Lemma max_loop_elem rest : ∀ best, Py.max_loop best rest ∈ best :: rest.
Proof.
  induction rest as [|[k v] rest IH]; intros best; simpl.
  - apply list_elem_of_here.
  - destruct (best.2 <? v).
    + apply list_elem_of_further, IH.
    + specialize (IH best). apply elem_of_cons in IH as [->|IH].
      * apply list_elem_of_here.
      * do 2 apply list_elem_of_further. exact IH.
Qed.

Lemma min_loop_elem rest : ∀ best, Py.min_loop best rest ∈ best :: rest.
Proof.
  induction rest as [|[k v] rest IH]; intros best; simpl.
  - apply list_elem_of_here.
  - destruct (v <? best.2).
    + apply list_elem_of_further, IH.
    + specialize (IH best). apply elem_of_cons in IH as [->|IH].
      * apply list_elem_of_here.
      * do 2 apply list_elem_of_further. exact IH.
Qed.

Lemma max_key_elem d k : Py.max_key d = Some k → k ∈ Py.keys d.
Proof.
  destruct d as [|item rest]; [discriminate|]. intros [= <-].
  apply list_elem_of_fmap. eexists. split; [reflexivity|apply max_loop_elem].
Qed.

Lemma min_key_elem d k : Py.min_key d = Some k → k ∈ Py.keys d.
Proof.
  destruct d as [|item rest]; [discriminate|]. intros [= <-].
  apply list_elem_of_fmap. eexists. split; [reflexivity|apply min_loop_elem].
Qed.

(** The means of three and of four ints are never NaN. *)
Lemma np_mean_int_3 a b c : is_nan (Py.np_mean_int [a; b; c]) = false.
Proof. eapply F64.np_mean_int_not_nan. reflexivity. Qed.

Lemma np_mean_int_4 a b c d : is_nan (Py.np_mean_int [a; b; c; d]) = false.
Proof. eapply F64.np_mean_int_not_nan. reflexivity. Qed.

Lemma max_key_3 k1 k2 k3 a b c :
  Py.max_key [(k1, a); (k2, b); (k3, c)] =
  Some (if a <? b then (if b <? c then k3 else k2)
        else (if a <? c then k3 else k1)).
Proof. simpl. destruct (a <? b), (b <? c), (a <? c); reflexivity. Qed.

End Selection.

(** ** The aggregators read their own indicators only *)

Ltac use_agreement H :=
  unfold agree_on, management_indikatoren, ordnungs_indikatoren,
    entwicklungs_indikatoren, systemische_indikatoren in H;
  repeat match type of H with
    | Forall _ (_ :: _) => let E := fresh "E" in apply Forall_cons in H as [E H]
    end;
  repeat match goal with E : get _ _ = get _ _ |- _ => rewrite E; clear E end.

Lemma analysiere_management_perspektiven_ext a b :
  agree_on management_indikatoren a b →
  analysiere_management_perspektiven a = analysiere_management_perspektiven b.
Proof.
  intros H. unfold analysiere_management_perspektiven. use_agreement H.
  reflexivity.
Qed.

Lemma analysiere_ordnungsmomente_ext a b :
  agree_on ordnungs_indikatoren a b →
  analysiere_ordnungsmomente a = analysiere_ordnungsmomente b.
Proof.
  intros H. unfold analysiere_ordnungsmomente. use_agreement H. reflexivity.
Qed.

Lemma analysiere_entwicklungsperspektiven_ext a b :
  agree_on entwicklungs_indikatoren a b →
  analysiere_entwicklungsperspektiven a = analysiere_entwicklungsperspektiven b.
Proof.
  intros H. unfold analysiere_entwicklungsperspektiven. use_agreement H.
  reflexivity.
Qed.

Lemma analysiere_systemische_eigenschaften_ext a b :
  agree_on systemische_indikatoren a b →
  analysiere_systemische_eigenschaften a = analysiere_systemische_eigenschaften b.
Proof.
  intros H. unfold analysiere_systemische_eigenschaften. use_agreement H.
  reflexivity.
Qed.

(** ** Uniform and empty ratings *)

Section Uniform.
Local Open Scope float_scope.

Ltac run_aggregators :=
  repeat split;
  match goal with
  | |- ∃ r, ?f ?a = Some r ∧ _ =>
      let v := eval vm_compute in (f a) in
      match v with
      | Some ?r => exists r; split; [vm_compute; reflexivity|]
      end
  end;
  repeat split; vm_compute; reflexivity.

Lemma all_scores_equal_empty : all_scores_equal ∅ 0 1.
Proof. run_aggregators. Qed.

Lemma all_scores_equal_uniform v :
  (1 ≤ v ≤ 7)%Z → all_scores_equal (uniform v) (Py.float_of_int v) 1.
Proof.
  intros Hv.
  assert (v = 1 ∨ v = 2 ∨ v = 3 ∨ v = 4 ∨ v = 5 ∨ v = 6 ∨ v = 7)%Z
    as [->|[->|[->|[->|[->|[->| ->]]]]]] by lia;
    run_aggregators.
Qed.

Lemma uniform_get v : Forall (λ k, get (uniform v) k = v) indikatoren.
Proof.
  unfold indikatoren, management_indikatoren, ordnungs_indikatoren,
    entwicklungs_indikatoren, systemische_indikatoren. simpl.
  repeat (apply Forall_cons_2; [vm_compute; reflexivity|]).
  apply Forall_nil_2.
Qed.

Lemma agree_on_uniform a v :
  (∀ k, k ∈ indikatoren → a !! k = Some v) → agree_on indikatoren a (uniform v).
Proof.
  intros H. apply Forall_forall. intros k Hk.
  pose proof (uniform_get v) as Hu. rewrite Forall_forall in Hu.
  rewrite (Hu k Hk). unfold get. rewrite (H k Hk). reflexivity.
Qed.

Lemma agree_on_indikatoren a b :
  agree_on indikatoren a b →
  agree_on management_indikatoren a b ∧ agree_on ordnungs_indikatoren a b ∧
  agree_on entwicklungs_indikatoren a b ∧ agree_on systemische_indikatoren a b.
Proof.
  unfold agree_on, indikatoren. rewrite !Forall_app. tauto.
Qed.

(** C1, with the value of the composite indices put right: when every
    indicator is set to the same integer rating v in 1..7, every dimension
    score of the four aggregators equals v, and for the empty ratings
    mapping every dimension score is 0.0; in both cases the spread is zero
    and the composite indices balance and coherence are 1 - 0/3.5 = 1. *)
Theorem uniform_ratings_scores (antworten : gmap string Z) (v : Z) :
  (1 ≤ v ≤ 7)%Z →
  (∀ k, k ∈ indikatoren → antworten !! k = Some v) →
  all_scores_equal antworten (Py.float_of_int v) 1 ∧
  all_scores_equal ∅ 0 1.
Proof.
  intros Hv Hall. split; [|apply all_scores_equal_empty].
  destruct (agree_on_indikatoren _ _ (agree_on_uniform _ _ Hall))
    as (Hm & Ho & He & Hs).
  unfold all_scores_equal.
  rewrite (analysiere_management_perspektiven_ext _ _ Hm),
    (analysiere_ordnungsmomente_ext _ _ Ho),
    (analysiere_entwicklungsperspektiven_ext _ _ He),
    (analysiere_systemische_eigenschaften_ext _ _ Hs).
  apply all_scores_equal_uniform, Hv.
Qed.

Lemma uniform_ratings_scores_witness :
  all_scores_equal (uniform 4) (Py.float_of_int 4) 1 ∧ all_scores_equal ∅ 0 1.
Proof.
  apply (uniform_ratings_scores (uniform 4) 4); [lia|].
  intros k Hk.
  unfold indikatoren, management_indikatoren, ordnungs_indikatoren,
    entwicklungs_indikatoren, systemische_indikatoren in Hk. simpl in Hk.
  repeat (apply elem_of_cons in Hk as [->|Hk]; [vm_compute; reflexivity|]).
  apply elem_of_nil in Hk. destruct Hk.
Defined.

(** C1 with the composite indices at 1/3.5 or 0.7143 does not hold: with
    zero spread the balance and the coherence are 1, which is neither 1/3.5
    nor within 0.28 of 0.7143; shown on the empty mapping and on the mapping
    that sets every indicator to 4. *)
Lemma zero_spread_composites_are_one :
  (∃ r, analysiere_management_perspektiven ∅ = Some r ∧
     Management.balance r = 1 ∧
     (Management.balance r =? 1 / 3.5) = false ∧
     (abs (Management.balance r - 0.7143) <? 0.28) = false) ∧
  (∃ r, analysiere_ordnungsmomente (uniform 4) = Some r ∧
     Ordnung.kohärenz r = 1 ∧
     (Ordnung.kohärenz r =? 1 / 3.5) = false ∧
     (abs (Ordnung.kohärenz r - 0.7143) <? 0.28) = false).
Proof.
  split.
  - eexists. split; [vm_compute; reflexivity|].
    repeat split; vm_compute; reflexivity.
  - eexists. split; [vm_compute; reflexivity|].
    repeat split; vm_compute; reflexivity.
Qed.

End Uniform.

(** ** The scenario of a dominant normative perspective *)

Section Scenario.
Local Open Scope float_scope.

(** C5: on the scenario ratings the normative score is 7.0, the strategic
    and the operational scores are 1.0, the balance is
    1 - population_std_dev([7,1,1])/3.5, between 0.1918 and 0.1920, the
    standard deviation being between 2.828 and 2.829, and the dominant
    perspective is "normativ". *)
Theorem normativ_lastig_scenario :
  ∃ r, analysiere_management_perspektiven normativ_lastig = Some r ∧
    Management.scores r =
      [("normativ", 7); ("strategisch", 1); ("operativ", 1)] ∧
    Management.balance r = 1 - Py.np_std [7; 1; 1] / 3.5 ∧
    (2.828 <? Py.np_std [7; 1; 1]) = true ∧
    (Py.np_std [7; 1; 1] <? 2.829) = true ∧
    (0.1918 <? Management.balance r) = true ∧
    (Management.balance r <? 0.1920) = true ∧
    Management.dominante_perspektive r = "normativ".
Proof.
  eexists. split; [vm_compute; reflexivity|].
  repeat split; vm_compute; reflexivity.
Qed.

End Scenario.

(** ** Systemic properties and the orchestrator *)

Section Aggregators.
Local Open Scope float_scope.

(** C2, which the code does not meet: the comparison that
    [analysiere_systemische_eigenschaften] returns is the comparator applied
    to the environment sensitivity under the key "umwelt_sensitivitaet".
    The table registers "umwelt_sensitivität", so the lookup finds nothing:
    the optimum is the default 0.7 and the source and finding strings are
    empty, where the registered record has the source
    "Ansoff & Sullivan (2021) - Environmental Scanning". *)
Theorem systemisch_vergleich_misses_benchmark (antworten : gmap string Z) :
  ∃ r, analysiere_systemische_eigenschaften antworten = Some r ∧
    Systemisch.empirischer_vergleich r =
      _vergleiche_mit_benchmarks
        [("umwelt", Systemisch.umwelt_sensitivitaet r)] "umwelt_sensitivitaet"
        (Systemisch.umwelt_sensitivitaet r) ∧
    empirische_benchmarks !! "umwelt_sensitivitaet" = None ∧
    Vergleich.optimaler_benchmark (Systemisch.empirischer_vergleich r) = 0.7 ∧
    Vergleich.studie (Systemisch.empirischer_vergleich r) = "" ∧
    Vergleich.empirischer_befund (Systemisch.empirischer_vergleich r) = "" ∧
    Vergleich.studie
      (_vergleiche_mit_benchmarks
         [("umwelt", Systemisch.umwelt_sensitivitaet r)] "umwelt_sensitivität"
         (Systemisch.umwelt_sensitivitaet r)) =
      "Ansoff & Sullivan (2021) - Environmental Scanning".
Proof.
  eexists. split; [reflexivity|]. repeat split; vm_compute; reflexivity.
Qed.

(** C6: for ratings in the cast range the orchestrator and the four
    aggregators return a result, and every score and composite index of the
    consolidated result is the field of the same name that the standalone
    aggregator returns on the same ratings; each aggregator is run on the
    ratings alone. *)
Theorem komplette_analyse_copies_aggregators (antworten : gmap string Z) :
  cast_range indikatoren antworten →
  ∃ e mp om ep se,
    durchfuehr_komplette_analyse antworten = Some e ∧
    analysiere_management_perspektiven antworten = Some mp ∧
    analysiere_ordnungsmomente antworten = Some om ∧
    analysiere_entwicklungsperspektiven antworten = Some ep ∧
    analysiere_systemische_eigenschaften antworten = Some se ∧
    item (Management.scores mp) "normativ" = Some (normativ_score e) ∧
    item (Management.scores mp) "strategisch" = Some (strategisch_score e) ∧
    item (Management.scores mp) "operativ" = Some (operativ_score e) ∧
    perspektiven_balance e = Management.balance mp ∧
    item (Ordnung.scores om) "kultur" = Some (kultur_score e) ∧
    item (Ordnung.scores om) "strukturen" = Some (strukturen_score e) ∧
    item (Ordnung.scores om) "prozesse" = Some (prozesse_score e) ∧
    item (Ordnung.scores om) "technologien" = Some (technologien_score e) ∧
    ordnungsmomente_kohärenz e = Ordnung.kohärenz om ∧
    item (Entwicklung.scores ep) "reflexion" = Some (reflexions_fähigkeit e) ∧
    item (Entwicklung.scores ep) "innovation" = Some (innovations_fähigkeit e) ∧
    item (Entwicklung.scores ep) "transformation"
      = Some (transformations_fähigkeit e) ∧
    umwelt_sensitivität e = Systemisch.umwelt_sensitivitaet se ∧
    anpassungs_fähigkeit e = Systemisch.anpassungs_faehigkeit se ∧
    widerstands_fähigkeit e = Systemisch.widerstands_faehigkeit se.
Proof.
  intros _. eexists _, _, _, _, _. repeat split; reflexivity.
Qed.

Lemma komplette_analyse_copies_aggregators_witness :
  cast_range indikatoren normativ_lastig ∧
  ∃ e mp om ep se,
    durchfuehr_komplette_analyse normativ_lastig = Some e ∧
    analysiere_management_perspektiven normativ_lastig = Some mp ∧
    analysiere_ordnungsmomente normativ_lastig = Some om ∧
    analysiere_entwicklungsperspektiven normativ_lastig = Some ep ∧
    analysiere_systemische_eigenschaften normativ_lastig = Some se ∧
    item (Management.scores mp) "normativ" = Some (normativ_score e) ∧
    item (Management.scores mp) "strategisch" = Some (strategisch_score e) ∧
    item (Management.scores mp) "operativ" = Some (operativ_score e) ∧
    perspektiven_balance e = Management.balance mp ∧
    item (Ordnung.scores om) "kultur" = Some (kultur_score e) ∧
    item (Ordnung.scores om) "strukturen" = Some (strukturen_score e) ∧
    item (Ordnung.scores om) "prozesse" = Some (prozesse_score e) ∧
    item (Ordnung.scores om) "technologien" = Some (technologien_score e) ∧
    ordnungsmomente_kohärenz e = Ordnung.kohärenz om ∧
    item (Entwicklung.scores ep) "reflexion" = Some (reflexions_fähigkeit e) ∧
    item (Entwicklung.scores ep) "innovation" = Some (innovations_fähigkeit e) ∧
    item (Entwicklung.scores ep) "transformation"
      = Some (transformations_fähigkeit e) ∧
    umwelt_sensitivität e = Systemisch.umwelt_sensitivitaet se ∧
    anpassungs_fähigkeit e = Systemisch.anpassungs_faehigkeit se ∧
    widerstands_fähigkeit e = Systemisch.widerstands_faehigkeit se.
Proof.
  assert (H1 : cast_range indikatoren normativ_lastig).
  { apply (bool_decide_unpack _). vm_compute. reflexivity. }
  split; [exact H1|].
  apply (komplette_analyse_copies_aggregators normativ_lastig H1).
Defined.

End Aggregators.

(** ** Dominant perspective, extreme elements and the profile *)

Section Selected.
Local Open Scope float_scope.

(** Membership in a list that is written out. *)
Ltac in_list :=
  repeat first [apply list_elem_of_here | apply list_elem_of_further].

(** C7: for management and order ratings in the cast range the dominant
    perspective is one of normativ, strategisch, operativ, and the weakest
    and the strongest order element are each one of kultur, strukturen,
    prozesse, technologien; the aggregators return them on all such ratings.
    The key selected is the first key, in the insertion order of the scores,
    that attains the maximum (the minimum for the weakest element). *)
Theorem selected_keys_declared_and_first (antworten : gmap string Z) :
  cast_range (management_indikatoren ++ ordnungs_indikatoren) antworten →
  (∃ r, analysiere_management_perspektiven antworten = Some r ∧
     Py.keys (Management.scores r) = ["normativ"; "strategisch"; "operativ"] ∧
     Management.dominante_perspektive r
       ∈ ["normativ"; "strategisch"; "operativ"] ∧
     first_max (Management.scores r) (Management.dominante_perspektive r)) ∧
  (∃ r, analysiere_ordnungsmomente antworten = Some r ∧
     Py.keys (Ordnung.scores r)
       = ["kultur"; "strukturen"; "prozesse"; "technologien"] ∧
     Ordnung.schwaechstes_ordnungselement r
       ∈ ["kultur"; "strukturen"; "prozesse"; "technologien"] ∧
     Ordnung.staerkstes_ordnungselement r
       ∈ ["kultur"; "strukturen"; "prozesse"; "technologien"] ∧
     first_min (Ordnung.scores r) (Ordnung.schwaechstes_ordnungselement r) ∧
     first_max (Ordnung.scores r) (Ordnung.staerkstes_ordnungselement r)).
Proof.
  intros _. split.
  - unfold analysiere_management_perspektiven. cbv zeta.
    set (scores := [("normativ", _); _; _]).
    assert (Hn : no_nan scores).
    { repeat (apply Forall_cons_2; [apply np_mean_int_4|]). apply Forall_nil_2. }
    destruct (Py.max_key scores) as [k|] eqn:Hk; [|discriminate].
    eexists. split; [reflexivity|]. simpl.
    split; [reflexivity|]. split.
    + apply (max_key_elem scores k Hk).
    + apply max_key_first; assumption.
  - unfold analysiere_ordnungsmomente. cbv zeta.
    set (scores := [("kultur", _); _; _; _]).
    assert (Hn : no_nan scores).
    { repeat (apply Forall_cons_2; [apply np_mean_int_3|]). apply Forall_nil_2. }
    destruct (Py.min_key scores) as [kmin|] eqn:Hmin; [|discriminate].
    destruct (Py.max_key scores) as [kmax|] eqn:Hmax; [|discriminate].
    eexists. split; [reflexivity|]. simpl.
    split; [reflexivity|]. split; [|split; [|split]].
    + apply (min_key_elem scores kmin Hmin).
    + apply (max_key_elem scores kmax Hmax).
    + apply min_key_first; assumption.
    + apply max_key_first; assumption.
Qed.

Lemma selected_keys_declared_and_first_witness :
  cast_range (management_indikatoren ++ ordnungs_indikatoren) datennutzung_schwach ∧
  (∃ r, analysiere_management_perspektiven datennutzung_schwach = Some r ∧
     Py.keys (Management.scores r) = ["normativ"; "strategisch"; "operativ"] ∧
     Management.dominante_perspektive r
       ∈ ["normativ"; "strategisch"; "operativ"] ∧
     first_max (Management.scores r) (Management.dominante_perspektive r)) ∧
  (∃ r, analysiere_ordnungsmomente datennutzung_schwach = Some r ∧
     Py.keys (Ordnung.scores r)
       = ["kultur"; "strukturen"; "prozesse"; "technologien"] ∧
     Ordnung.schwaechstes_ordnungselement r
       ∈ ["kultur"; "strukturen"; "prozesse"; "technologien"] ∧
     Ordnung.staerkstes_ordnungselement r
       ∈ ["kultur"; "strukturen"; "prozesse"; "technologien"] ∧
     first_min (Ordnung.scores r) (Ordnung.schwaechstes_ordnungselement r) ∧
     first_max (Ordnung.scores r) (Ordnung.staerkstes_ordnungselement r)).
Proof.
  assert (H1 : cast_range (management_indikatoren ++ ordnungs_indikatoren)
                 datennutzung_schwach).
  { apply (bool_decide_unpack _). vm_compute. reflexivity. }
  split; [exact H1|].
  apply (selected_keys_declared_and_first datennutzung_schwach H1).
Defined.

(** The profile classifier on the three development scores. *)
Lemma entwicklungs_profil_3 r i t :
  _bestimme_entwicklungs_profil
    [("reflexion", r); ("innovation", i); ("transformation", t)] =
  Some (if r <? i
        then (if i <? t then "Transformative Organisation"
              else "Innovative Organisation")
        else (if r <? t then "Transformative Organisation"
              else "Lernende Organisation")).
Proof.
  unfold _bestimme_entwicklungs_profil. rewrite max_key_3. simpl.
  destruct (r <? i), (i <? t), (r <? t); reflexivity.
Qed.

(** C8: for development ratings in the cast range the aggregator returns a
    profile.  It is "Lernende Organisation" (learning) when the reflexion
    score is maximal, "Innovative Organisation" when the innovation score is
    maximal and exceeds the reflexion score, and "Transformative Organisation"
    when the transformation score exceeds both others: of several maximal
    scores the first key in insertion order decides.  One of the three cases
    always applies. *)
Theorem entwicklungs_profil_by_maximum (antworten : gmap string Z) :
  cast_range entwicklungs_indikatoren antworten →
  ∃ res r i t,
    analysiere_entwicklungsperspektiven antworten = Some res ∧
    Entwicklung.scores res =
      [("reflexion", r); ("innovation", i); ("transformation", t)] ∧
    ((i <=? r) = true ∧ (t <=? r) = true →
       Entwicklung.entwicklungs_profil res = "Lernende Organisation") ∧
    ((r <? i) = true ∧ (t <=? i) = true →
       Entwicklung.entwicklungs_profil res = "Innovative Organisation") ∧
    ((r <? t) = true ∧ (i <? t) = true →
       Entwicklung.entwicklungs_profil res = "Transformative Organisation") ∧
    (((i <=? r) = true ∧ (t <=? r) = true) ∨
     ((r <? i) = true ∧ (t <=? i) = true) ∨
     ((r <? t) = true ∧ (i <? t) = true)).
Proof.
  intros _. unfold analysiere_entwicklungsperspektiven. cbv zeta.
  set (r := Py.np_mean_int [get antworten "erfahrungsauswertung"; _; _]).
  set (i := Py.np_mean_int [get antworten "kreativitaetsfoerderung"; _; _]).
  set (t := Py.np_mean_int [get antworten "anpassungsflexibilitaet"; _; _]).
  assert (Hr : is_nan r = false) by apply np_mean_int_3.
  assert (Hi : is_nan i = false) by apply np_mean_int_3.
  assert (Ht : is_nan t = false) by apply np_mean_int_3.
  rewrite entwicklungs_profil_3. clearbody r i t.
  eexists _, r, i, t. split; [reflexivity|]. simpl. split; [reflexivity|].
  destruct (r <? i) eqn:Hri; [destruct (i <? t) eqn:Hit|destruct (r <? t) eqn:Hrt].
  - (* reflexion < innovation < transformation *)
    pose proof (F64.ltb_leb_trans _ _ _ Hri (F64.ltb_leb _ _ Hit)) as Hrt.
    repeat split; try tauto.
    + intros [H _]. apply F64.leb_not_ltb in H. congruence.
    + intros [_ H]. apply F64.leb_not_ltb in H. congruence.
  - (* reflexion < innovation, transformation <= innovation *)
    pose proof (F64.not_ltb_leb _ _ Hi Ht Hit) as Hti.
    repeat split; try tauto.
    + intros [H _]. apply F64.leb_not_ltb in H. congruence.
    + intros [_ H]. congruence.
  - (* innovation <= reflexion < transformation *)
    pose proof (F64.not_ltb_leb _ _ Hr Hi Hri) as Hir.
    pose proof (F64.leb_ltb_trans _ _ _ Hir Hrt) as Hit.
    repeat split; try tauto.
    + intros [_ H]. apply F64.leb_not_ltb in H. congruence.
    + intros [H _]. congruence.
  - (* innovation <= reflexion, transformation <= reflexion *)
    pose proof (F64.not_ltb_leb _ _ Hr Hi Hri) as Hir.
    pose proof (F64.not_ltb_leb _ _ Hr Ht Hrt) as Htr.
    repeat split; try tauto.
    + intros [H _]. congruence.
    + intros [H _]. congruence.
Qed.

Lemma entwicklungs_profil_by_maximum_witness :
  cast_range entwicklungs_indikatoren experimentierfreudig ∧
  ∃ res r i t,
    analysiere_entwicklungsperspektiven experimentierfreudig = Some res ∧
    Entwicklung.scores res =
      [("reflexion", r); ("innovation", i); ("transformation", t)] ∧
    ((i <=? r) = true ∧ (t <=? r) = true →
       Entwicklung.entwicklungs_profil res = "Lernende Organisation") ∧
    ((r <? i) = true ∧ (t <=? i) = true →
       Entwicklung.entwicklungs_profil res = "Innovative Organisation") ∧
    ((r <? t) = true ∧ (i <? t) = true →
       Entwicklung.entwicklungs_profil res = "Transformative Organisation") ∧
    (((i <=? r) = true ∧ (t <=? r) = true) ∨
     ((r <? i) = true ∧ (t <=? i) = true) ∨
     ((r <? t) = true ∧ (i <? t) = true)).
Proof.
  assert (H1 : cast_range entwicklungs_indikatoren experimentierfreudig).
  { apply (bool_decide_unpack _). vm_compute. reflexivity. }
  split; [exact H1|].
  apply (entwicklungs_profil_by_maximum experimentierfreudig H1).
Defined.

(** C9: for development ratings in the cast range the aggregator returns a
    profile, and the fallback label "Ausgeglichene Organisation" (balanced)
    is never that profile.  The key that [max] selects is one of the three
    development keys, each of which the label table maps to its own
    label. *)
Theorem entwicklungs_profil_never_fallback (antworten : gmap string Z) :
  cast_range entwicklungs_indikatoren antworten →
  ∃ res k,
    analysiere_entwicklungsperspektiven antworten = Some res ∧
    Py.max_key (Entwicklung.scores res) = Some k ∧
    k ∈ ["reflexion"; "innovation"; "transformation"] ∧
    profile !! k = Some (Entwicklung.entwicklungs_profil res) ∧
    Entwicklung.entwicklungs_profil res
      ∈ ["Lernende Organisation"; "Innovative Organisation";
         "Transformative Organisation"] ∧
    Entwicklung.entwicklungs_profil res ≠ "Ausgeglichene Organisation".
Proof.
  intros _. unfold analysiere_entwicklungsperspektiven. cbv zeta.
  set (r := Py.np_mean_int [get antworten "erfahrungsauswertung"; _; _]).
  set (i := Py.np_mean_int [get antworten "kreativitaetsfoerderung"; _; _]).
  set (t := Py.np_mean_int [get antworten "anpassungsflexibilitaet"; _; _]).
  rewrite entwicklungs_profil_3. clearbody r i t.
  eexists _, _. split; [reflexivity|]. simpl. split; [reflexivity|].
  destruct (r <? i), (i <? t), (r <? t);
    repeat split; try discriminate; try reflexivity; in_list.
Qed.

Lemma entwicklungs_profil_never_fallback_witness :
  cast_range entwicklungs_indikatoren (uniform 4) ∧
  ∃ res k,
    analysiere_entwicklungsperspektiven (uniform 4) = Some res ∧
    Py.max_key (Entwicklung.scores res) = Some k ∧
    k ∈ ["reflexion"; "innovation"; "transformation"] ∧
    profile !! k = Some (Entwicklung.entwicklungs_profil res) ∧
    Entwicklung.entwicklungs_profil res
      ∈ ["Lernende Organisation"; "Innovative Organisation";
         "Transformative Organisation"] ∧
    Entwicklung.entwicklungs_profil res ≠ "Ausgeglichene Organisation".
Proof.
  assert (H1 : cast_range entwicklungs_indikatoren (uniform 4)).
  { apply (bool_decide_unpack _). vm_compute. reflexivity. }
  split; [exact H1|].
  apply (entwicklungs_profil_never_fallback (uniform 4) H1).
Defined.

End Selected.

(** ** Worked examples *)

Section Examples.
Local Open Scope float_scope.

(** An int rating is its own float64 value. *)
Example float_of_int_7 : Py.float_of_int 7 = 7.
Proof. reflexivity. Qed.

(** On the rating scale (0 for an absent indicator, 1..7 otherwise) the sum
    of four ratings is exact, so the order of the additions does not
    matter. *)
Example np_sum_exact_on_scale :
  let scale := Py.float_of_int <$> [0; 1; 2; 3; 4; 5; 6; 7]%Z in
  forallb (λ a, forallb (λ b, forallb (λ c, forallb (λ d,
    PrimFloat.Leibniz.eqb (Py.np_sum [a; b; c; d]) (a + (b + (c + d))))
    scale) scale) scale) scale = true.
Proof. vm_compute. reflexivity. Qed.

(** A value equal to the optimum is below it; a greater one is above. *)
Example vergleich_at_optimum :
  Vergleich.interpretation
    (_vergleiche_mit_benchmarks [] "perspektiven_balance" 0.8)
    = "unterdurchschnittlich" ∧
  Vergleich.interpretation
    (_vergleiche_mit_benchmarks [] "perspektiven_balance" 1)
    = "überdurchschnittlich".
Proof. split; vm_compute; reflexivity. Qed.

(** All order elements at 4 except the technology family at 1: the weakest
    element is technologien, and of the three elements that tie at 4.0 the
    first one, kultur, is the strongest. *)
Example ordnungsmomente_tie :
  let antworten : gmap string Z :=
    list_to_map
      [ ("wertekonsens", 4%Z); ("verhaltensnormen", 4%Z);
        ("gemeinschaftsgefuehl", 4%Z); ("rollenklaerung", 4%Z);
        ("entscheidungskompetenz", 4%Z); ("koordinationsmechanismen", 4%Z);
        ("prozessstandardisierung", 4%Z);
        ("entscheidungsgeschwindigkeit", 4%Z);
        ("kontinuierliche_verbesserung", 4%Z);
        ("systemunterstuetzung", 1%Z); ("digitalisierungsgrad", 1%Z);
        ("datennutzung", 1%Z) ] in
  ∃ r, analysiere_ordnungsmomente antworten = Some r ∧
    Ordnung.scores r =
      [("kultur", 4); ("strukturen", 4); ("prozesse", 4); ("technologien", 1)] ∧
    Ordnung.schwaechstes_ordnungselement r = "technologien" ∧
    Ordnung.staerkstes_ordnungselement r = "kultur".
Proof.
  eexists. split; [vm_compute; reflexivity|]. repeat split.
Qed.

(** Each of the three profile labels is returned on some ratings: on equal
    scores the first key decides. *)
Example entwicklungs_profile_reached :
  (Entwicklung.entwicklungs_profil <$>
     analysiere_entwicklungsperspektiven ∅) = Some "Lernende Organisation" ∧
  (Entwicklung.entwicklungs_profil <$>
     analysiere_entwicklungsperspektiven {[ "lernbereitschaft" := 7%Z ]})
    = Some "Lernende Organisation" ∧
  (Entwicklung.entwicklungs_profil <$>
     analysiere_entwicklungsperspektiven {[ "experimentierfreudigkeit" := 7%Z ]})
    = Some "Innovative Organisation" ∧
  (Entwicklung.entwicklungs_profil <$>
     analysiere_entwicklungsperspektiven {[ "zukunftsgestaltung" := 7%Z ]})
    = Some "Transformative Organisation".
Proof. repeat split; vm_compute; reflexivity. Qed.

(** When all scores are equal the first key of each family is selected, as
    the maximum and as the minimum. *)
Example equal_scores_select_first_key :
  (Management.dominante_perspektive <$>
     analysiere_management_perspektiven (uniform 4)) = Some "normativ" ∧
  (Ordnung.schwaechstes_ordnungselement <$>
     analysiere_ordnungsmomente (uniform 4)) = Some "kultur" ∧
  (Ordnung.staerkstes_ordnungselement <$>
     analysiere_ordnungsmomente (uniform 4)) = Some "kultur".
Proof. repeat split; vm_compute; reflexivity. Qed.

(** That the ratings are ints matters for the exactness of a score: the
    float64 mean of three equal values that are not integers can miss the
    value in the last place, and their standard deviation is then not zero. *)
Example np_mean_of_equal_floats :
  Py.np_mean [1.4; 1.4; 1.4] = 1.3999999999999997 ∧
  (Py.np_mean [1.4; 1.4; 1.4] =? 1.4) = false ∧
  Py.np_std [1.4; 1.4; 1.4] = 2.2204460492503131e-16.
Proof. repeat split; vm_compute; reflexivity. Qed.

(** Keys outside the vocabulary are ignored. *)
Example unknown_keys_ignored :
  analysiere_management_perspektiven {[ "unbekannt" := 5%Z ]} =
  analysiere_management_perspektiven ∅.
Proof. vm_compute. reflexivity. Qed.

End Examples.

(** * Further properties of the engine and of the application

    The bounds of the scores on rated indicators, the inputs that each
    aggregator reads, the charts, the session and the recommendations. *)

Section Ratings.

Lemma agree_on_refl ks a : agree_on ks a a.
Proof. apply Forall_forall. reflexivity. Qed.

Lemma durchfuehr_komplette_analyse_ext a b :
  agree_on indikatoren a b →
  durchfuehr_komplette_analyse a = durchfuehr_komplette_analyse b.
Proof.
  intros H. destruct (agree_on_indikatoren _ _ H) as (Hm & Ho & He & Hs).
  unfold durchfuehr_komplette_analyse.
  rewrite (analysiere_management_perspektiven_ext _ _ Hm),
    (analysiere_ordnungsmomente_ext _ _ Ho),
    (analysiere_entwicklungsperspektiven_ext _ _ He),
    (analysiere_systemische_eigenschaften_ext _ _ Hs).
  reflexivity.
Qed.

Lemma get_insert_ne a k z k' : k ≠ k' → get (<[k:=z]> a) k' = get a k'.
Proof. intros H. unfold get. rewrite lookup_insert_ne by exact H. reflexivity. Qed.

Lemma get_insert_zero a k k' : a !! k = None → get (<[k:=0%Z]> a) k' = get a k'.
Proof.
  intros H. unfold get. destruct (decide (k = k')) as [<-|Hne].
  - rewrite lookup_insert_eq, H. reflexivity.
  - rewrite lookup_insert_ne by exact Hne. reflexivity.
Qed.

Lemma forallb_seqZ (f : Z → bool) lo n z :
  (lo ≤ z < lo + n)%Z → forallb f (seqZ lo n) = true → f z = true.
Proof.
  intros Hz H. rewrite forallb_forall in H. apply H.
  apply list_elem_of_In, elem_of_seqZ. exact Hz.
Qed.

End Ratings.

(** From a check over a range to one of its members. *)
Ltac pick H z := apply (forallb_seqZ _ _ _ z) in H; [|lia].

Section Means.
Local Open Scope float_scope.

Lemma np_mean_int_3_sum a b c :
  (0 ≤ a ≤ 7)%Z → (0 ≤ b ≤ 7)%Z → (0 ≤ c ≤ 7)%Z →
  Py.np_mean_int [a; b; c] = mean_of_sum 3 (a + b + c).
Proof.
  intros Ha Hb Hc.
  assert (H : forallb (λ a, forallb (λ b, forallb (λ c,
    PrimFloat.Leibniz.eqb (Py.np_mean_int [a; b; c]) (mean_of_sum 3 (a + b + c)))
    (seqZ 0 8)) (seqZ 0 8)) (seqZ 0 8) = true) by (vm_compute; reflexivity).
  pick H a. pick H b. pick H c.
  apply FloatAxioms.Leibniz.eqb_spec, H.
Qed.

Lemma np_mean_int_4_sum a b c d :
  (0 ≤ a ≤ 7)%Z → (0 ≤ b ≤ 7)%Z → (0 ≤ c ≤ 7)%Z → (0 ≤ d ≤ 7)%Z →
  Py.np_mean_int [a; b; c; d] = mean_of_sum 4 (a + b + c + d).
Proof.
  intros Ha Hb Hc Hd.
  assert (H : forallb (λ a, forallb (λ b, forallb (λ c, forallb (λ d,
    PrimFloat.Leibniz.eqb (Py.np_mean_int [a; b; c; d])
      (mean_of_sum 4 (a + b + c + d)))
    (seqZ 0 8)) (seqZ 0 8)) (seqZ 0 8)) (seqZ 0 8) = true)
    by (vm_compute; reflexivity).
  pick H a. pick H b. pick H c. pick H d.
  apply FloatAxioms.Leibniz.eqb_spec, H.
Qed.

(** A mean lies between the bounds of the ratings. *)
Lemma mean_of_sum_between n lo hi s :
  (n = 3 ∨ n = 4)%Z → (0 ≤ lo)%Z → (hi ≤ 7)%Z →
  (n * lo ≤ s ≤ n * hi)%Z →
  between lo hi (mean_of_sum n s) = true.
Proof.
  intros Hn Hlo Hhi Hs.
  assert (H : forallb (λ n, forallb (λ lo, forallb (λ hi, forallb (λ s,
    negb ((n * lo <=? s)%Z && (s <=? n * hi)%Z) || between lo hi (mean_of_sum n s))
    (seqZ 0 29)) (seqZ 0 8)) (seqZ 0 8)) (seqZ 3 2) = true)
    by (vm_compute; reflexivity).
  pick H n. pick H lo. pick H hi. pick H s.
  apply orb_true_iff in H as [H|H]; [|exact H].
  apply negb_true_iff, andb_false_iff in H as [H|H]; lia.
Qed.

Lemma balance_between s1 s2 s3 :
  (0 ≤ s1 ≤ 28)%Z → (0 ≤ s2 ≤ 28)%Z → (0 ≤ s3 ≤ 28)%Z →
  between 0 1
    (1 - Py.np_std [mean_of_sum 4 s1; mean_of_sum 4 s2; mean_of_sum 4 s3] / 3.5)
    = true.
Proof.
  intros H1 H2 H3.
  assert (H : forallb (λ s1, forallb (λ s2, forallb (λ s3,
    between 0 1
      (1 - Py.np_std [mean_of_sum 4 s1; mean_of_sum 4 s2; mean_of_sum 4 s3] / 3.5))
    (seqZ 0 29)) (seqZ 0 29)) (seqZ 0 29) = true) by (vm_compute; reflexivity).
  pick H s1. pick H s2. pick H s3. exact H.
Qed.

Lemma kohaerenz_between s1 s2 s3 s4 :
  (0 ≤ s1 ≤ 21)%Z → (0 ≤ s2 ≤ 21)%Z → (0 ≤ s3 ≤ 21)%Z → (0 ≤ s4 ≤ 21)%Z →
  between 0 1
    (1 - Py.np_std [mean_of_sum 3 s1; mean_of_sum 3 s2; mean_of_sum 3 s3;
                    mean_of_sum 3 s4] / 3.5)
    = true.
Proof.
  intros H1 H2 H3 H4.
  assert (H : forallb (λ s1, forallb (λ s2, forallb (λ s3, forallb (λ s4,
    between 0 1
      (1 - Py.np_std [mean_of_sum 3 s1; mean_of_sum 3 s2; mean_of_sum 3 s3;
                      mean_of_sum 3 s4] / 3.5))
    (seqZ 0 22)) (seqZ 0 22)) (seqZ 0 22)) (seqZ 0 22) = true)
    by (vm_compute; reflexivity).
  pick H s1. pick H s2. pick H s3. pick H s4. exact H.
Qed.

(** The mean of three means lies between the bounds of the ratings. *)
Lemma mean_of_means_between lo hi s1 s2 s3 :
  (0 ≤ lo)%Z → (hi ≤ 7)%Z →
  (3 * lo ≤ s1 ≤ 3 * hi)%Z → (3 * lo ≤ s2 ≤ 3 * hi)%Z →
  (3 * lo ≤ s3 ≤ 3 * hi)%Z →
  between lo hi
    (Py.np_mean [mean_of_sum 3 s1; mean_of_sum 3 s2; mean_of_sum 3 s3]) = true.
Proof.
  intros Hlo Hhi H1 H2 H3.
  pose (ok := λ lo hi s : Z, ((3 * lo <=? s)%Z && (s <=? 3 * hi)%Z)).
  assert (H : forallb (λ lo, forallb (λ hi,
    forallb (λ s1, forallb (λ s2, forallb (λ s3,
      negb (ok lo hi s1 && ok lo hi s2 && ok lo hi s3) ||
      between lo hi
        (Py.np_mean [mean_of_sum 3 s1; mean_of_sum 3 s2; mean_of_sum 3 s3]))
    (seqZ 0 22)) (seqZ 0 22)) (seqZ 0 22)) (seqZ 0 8)) (seqZ 0 8) = true)
    by (vm_compute; reflexivity).
  pick H lo. pick H hi. pick H s1. pick H s2. pick H s3.
  apply orb_true_iff in H as [H|H]; [|exact H].
  apply negb_true_iff in H. unfold ok in H.
  rewrite !andb_false_iff in H. lia.
Qed.

Lemma np_mean_int_3_bounded lo hi a b c :
  (0 ≤ lo)%Z → (hi ≤ 7)%Z →
  (lo ≤ a ≤ hi)%Z → (lo ≤ b ≤ hi)%Z → (lo ≤ c ≤ hi)%Z →
  ∃ s, (3 * lo ≤ s ≤ 3 * hi)%Z ∧ Py.np_mean_int [a; b; c] = mean_of_sum 3 s.
Proof.
  intros. exists (a + b + c)%Z. split; [lia|].
  apply np_mean_int_3_sum; lia.
Qed.

Lemma np_mean_int_4_bounded lo hi a b c d :
  (0 ≤ lo)%Z → (hi ≤ 7)%Z →
  (lo ≤ a ≤ hi)%Z → (lo ≤ b ≤ hi)%Z → (lo ≤ c ≤ hi)%Z → (lo ≤ d ≤ hi)%Z →
  ∃ s, (4 * lo ≤ s ≤ 4 * hi)%Z ∧ Py.np_mean_int [a; b; c; d] = mean_of_sum 4 s.
Proof.
  intros. exists (a + b + c + d)%Z. split; [lia|].
  apply np_mean_int_4_sum; lia.
Qed.

End Means.

(** The bounds of the single indicators, one hypothesis each. *)
Ltac use_ratings H :=
  unfold rated_within, indikatoren, management_indikatoren,
    ordnungs_indikatoren, entwicklungs_indikatoren, systemische_indikatoren in H;
  simpl in H;
  repeat match type of H with
    | Forall _ (_ :: _) => let B := fresh "B" in apply Forall_cons in H as [B H]
    end;
  clear H.

Ltac mean3 lo hi s B E :=
  match goal with
  | |- context [Py.np_mean_int [?a; ?b; ?c]] =>
      destruct (np_mean_int_3_bounded lo hi a b c) as (s & B & E);
      [lia..|rewrite E; clear E]
  end.

Ltac mean4 lo hi s B E :=
  match goal with
  | |- context [Py.np_mean_int [?a; ?b; ?c; ?d]] =>
      destruct (np_mean_int_4_bounded lo hi a b c d) as (s & B & E);
      [lia..|rewrite E; clear E]
  end.

Section OnScale.
Local Open Scope float_scope.

(** X1: when every indicator is rated between [lo] and [hi], with
    [0 ≤ lo] and [hi ≤ 7], every dimension score of the four aggregators lies
    between [lo] and [hi], and so do the adaptability of the development
    family and the systemic health; the balance and the coherence lie
    between 0 and 1. *)
Theorem on_scale_scores_and_indices (a : gmap string Z) (lo hi : Z) :
  (0 ≤ lo)%Z → (hi ≤ 7)%Z → rated_within lo hi indikatoren a →
  (∃ r, analysiere_management_perspektiven a = Some r ∧
     Forall (λ p, between lo hi p.2 = true) (Management.scores r) ∧
     between 0 1 (Management.balance r) = true) ∧
  (∃ r, analysiere_ordnungsmomente a = Some r ∧
     Forall (λ p, between lo hi p.2 = true) (Ordnung.scores r) ∧
     between 0 1 (Ordnung.kohärenz r) = true) ∧
  (∃ r, analysiere_entwicklungsperspektiven a = Some r ∧
     Forall (λ p, between lo hi p.2 = true) (Entwicklung.scores r) ∧
     between lo hi (Entwicklung.anpassungs_faehigkeit r) = true) ∧
  (∃ r, analysiere_systemische_eigenschaften a = Some r ∧
     between lo hi (Systemisch.umwelt_sensitivitaet r) = true ∧
     between lo hi (Systemisch.anpassungs_faehigkeit r) = true ∧
     between lo hi (Systemisch.widerstands_faehigkeit r) = true ∧
     between lo hi (Systemisch.systemische_gesundheit r) = true).
Proof.
  intros Hlo Hhi H. use_ratings H.
  split; [|split; [|split]].
  - unfold analysiere_management_perspektiven. cbv zeta.
    mean4 lo hi s1 S1 E1. mean4 lo hi s2 S2 E2. mean4 lo hi s3 S3 E3.
    rewrite max_key_3. eexists. split; [reflexivity|]. simpl. split.
    + repeat (apply Forall_cons_2; [apply mean_of_sum_between; lia|]).
      apply Forall_nil_2.
    + apply balance_between; lia.
  - unfold analysiere_ordnungsmomente. cbv zeta.
    mean3 lo hi s1 S1 E1. mean3 lo hi s2 S2 E2. mean3 lo hi s3 S3 E3.
    mean3 lo hi s4 S4 E4.
    destruct (Py.min_key _) as [kmin|] eqn:Hmin; [|discriminate].
    destruct (Py.max_key _) as [kmax|] eqn:Hmax; [|discriminate].
    eexists. split; [reflexivity|]. simpl. split.
    + repeat (apply Forall_cons_2; [apply mean_of_sum_between; lia|]).
      apply Forall_nil_2.
    + apply kohaerenz_between; lia.
  - unfold analysiere_entwicklungsperspektiven. cbv zeta.
    mean3 lo hi s1 S1 E1. mean3 lo hi s2 S2 E2. mean3 lo hi s3 S3 E3.
    rewrite entwicklungs_profil_3. eexists. split; [reflexivity|]. simpl. split.
    + repeat (apply Forall_cons_2; [apply mean_of_sum_between; lia|]).
      apply Forall_nil_2.
    + apply mean_of_means_between; lia.
  - unfold analysiere_systemische_eigenschaften. cbv zeta.
    mean3 lo hi s1 S1 E1. mean3 lo hi s2 S2 E2. mean3 lo hi s3 S3 E3.
    eexists. split; [reflexivity|]. simpl.
    repeat split; try (apply mean_of_sum_between; lia).
    apply mean_of_means_between; lia.
Qed.

Lemma on_scale_scores_and_indices_witness :
  rated_within 0 7 indikatoren normativ_lastig ∧
  (∃ r, analysiere_management_perspektiven normativ_lastig = Some r ∧
     Forall (λ p, between 0 7 p.2 = true) (Management.scores r) ∧
     between 0 1 (Management.balance r) = true) ∧
  (∃ r, analysiere_ordnungsmomente normativ_lastig = Some r ∧
     Forall (λ p, between 0 7 p.2 = true) (Ordnung.scores r) ∧
     between 0 1 (Ordnung.kohärenz r) = true) ∧
  (∃ r, analysiere_entwicklungsperspektiven normativ_lastig = Some r ∧
     Forall (λ p, between 0 7 p.2 = true) (Entwicklung.scores r) ∧
     between 0 7 (Entwicklung.anpassungs_faehigkeit r) = true) ∧
  (∃ r, analysiere_systemische_eigenschaften normativ_lastig = Some r ∧
     between 0 7 (Systemisch.umwelt_sensitivitaet r) = true ∧
     between 0 7 (Systemisch.anpassungs_faehigkeit r) = true ∧
     between 0 7 (Systemisch.widerstands_faehigkeit r) = true ∧
     between 0 7 (Systemisch.systemische_gesundheit r) = true).
Proof.
  assert (H : rated_within 0 7 indikatoren normativ_lastig).
  { apply (bool_decide_unpack _). vm_compute. reflexivity. }
  split; [exact H|].
  apply (on_scale_scores_and_indices normativ_lastig 0 7); [lia|lia|exact H].
Defined.

End OnScale.

Module F64Eq.
Import SF.
Local Open Scope float_scope.

Lemma eqb_refl x : is_nan x = false → (x =? x) = true.
Proof. unfold is_nan. intros H. apply negb_false_iff, H. Qed.

Lemma eqb_sym x y : (x =? y) = (y =? x).
Proof.
  apply eq_true_iff_eq. rewrite !F64.eqb_cmp, (F64.cmp_swap x y).
  destruct (cmp x y) as [[]|]; simpl; split; congruence.
Qed.

Lemma ltb_not_eqb x y : (x <? y) = true → (x =? y) = false ∧ (y =? x) = false.
Proof.
  intros H. rewrite (eqb_sym x y). assert ((y =? x) = false); [|auto].
  apply not_true_is_false. intros He.
  apply F64.eqb_not_ltb in He. congruence.
Qed.

Lemma leb_antisym x y : (x <=? y) = true → (y <=? x) = true → (x =? y) = true.
Proof.
  rewrite !F64.leb_cmp, F64.eqb_cmp, (F64.cmp_swap x y).
  destruct (cmp x y) as [[]|]; simpl; intros [?|?] [?|?]; congruence.
Qed.

Lemma eqb_leb x y : (x =? y) = true → (x <=? y) = true ∧ (y <=? x) = true.
Proof.
  rewrite !F64.leb_cmp, F64.eqb_cmp, (F64.cmp_swap x y).
  intros ->. simpl. auto.
Qed.

End F64Eq.

Section Orchestrated.
Local Open Scope float_scope.

(** The consolidated result, field by field. *)
Lemma durchfuehr_komplette_analyse_fields a :
  ∃ e, durchfuehr_komplette_analyse a = Some e ∧
    normativ_score e =
      Py.np_mean_int [get a "wertekongruenz"; get a "sinnstiftung";
                      get a "identitaetsbeitrag"; get a "legitimitaet"] ∧
    strategisch_score e =
      Py.np_mean_int [get a "wettbewerbsvorteil"; get a "marktrelevanz";
                      get a "ressourcenpassung"; get a "zukunftsfaehigkeit"] ∧
    operativ_score e =
      Py.np_mean_int [get a "prozesseffizienz"; get a "ressourcenoptimierung";
                      get a "qualitaetssicherung"; get a "skalierbarkeit"] ∧
    kultur_score e =
      Py.np_mean_int [get a "wertekonsens"; get a "verhaltensnormen";
                      get a "gemeinschaftsgefuehl"] ∧
    strukturen_score e =
      Py.np_mean_int [get a "rollenklaerung"; get a "entscheidungskompetenz";
                      get a "koordinationsmechanismen"] ∧
    prozesse_score e =
      Py.np_mean_int [get a "prozessstandardisierung";
                      get a "entscheidungsgeschwindigkeit";
                      get a "kontinuierliche_verbesserung"] ∧
    technologien_score e =
      Py.np_mean_int [get a "systemunterstuetzung"; get a "digitalisierungsgrad";
                      get a "datennutzung"] ∧
    reflexions_fähigkeit e =
      Py.np_mean_int [get a "erfahrungsauswertung"; get a "feedback_kultur";
                      get a "lernbereitschaft"] ∧
    innovations_fähigkeit e =
      Py.np_mean_int [get a "kreativitaetsfoerderung";
                      get a "experimentierfreudigkeit";
                      get a "veraenderungsbereitschaft"] ∧
    transformations_fähigkeit e =
      Py.np_mean_int [get a "anpassungsflexibilitaet";
                      get a "umstrukturierungskompetenz";
                      get a "zukunftsgestaltung"] ∧
    umwelt_sensitivität e =
      Py.np_mean_int [get a "marktbeobachtung"; get a "trendfruchterkennung";
                      get a "stakeholder_dialog"] ∧
    anpassungs_fähigkeit e =
      Py.np_mean_int [get a "reaktionsgeschwindigkeit";
                      get a "aenderungsmanagement";
                      get a "ressourcenflexibilitaet"] ∧
    widerstands_fähigkeit e =
      Py.np_mean_int [get a "krisenresistenz"; get a "ausfallsicherheit";
                      get a "erneuerungsfaehigkeit"].
Proof.
  eexists. split; [reflexivity|]. repeat split.
Qed.

Lemma radius_between s :
  (0 ≤ s ≤ 28)%Z → between 0 1 (mean_of_sum 4 s / 7) = true.
Proof.
  intros Hs.
  assert (H : forallb (λ s, between 0 1 (mean_of_sum 4 s / 7)) (seqZ 0 29) = true)
    by (vm_compute; reflexivity).
  apply (forallb_seqZ _ _ _ s) in H; [exact H|lia].
Qed.

(** X2: on ratings in the cast range, with the management ratings between
    0 and 7, the orchestrator returns a result and its radar chart is drawn
    from four radii for the angles Normativ, Strategisch, Operativ, Normativ:
    the last radius repeats the first, which closes the polygon, and every
    radius lies in the range [0, 1] of the radial axis. *)
Theorem radar_chart_closed_and_in_range (a : gmap string Z) :
  rated_within 0 7 management_indikatoren a →
  cast_range indikatoren a →
  ∃ e fig,
    durchfuehr_komplette_analyse a = Some e ∧
    erstelle_radar_chart_perspektiven e = Some fig ∧
    Radar.theta fig = ["Normativ"; "Strategisch"; "Operativ"; "Normativ"] ∧
    length (Radar.r fig) = length (Radar.theta fig) ∧
    head (Radar.r fig) = last (Radar.r fig) ∧
    Radar.radialaxis_range fig = [0; 1]%Z ∧
    Forall (λ x, between 0 1 x = true) (Radar.r fig).
Proof.
  intros H _. use_ratings H.
  destruct (durchfuehr_komplette_analyse_fields a) as (e & He & Hn & Hs & Ho & _).
  exists e. eexists. split; [exact He|]. split; [reflexivity|]. simpl.
  repeat split. rewrite Hn, Hs, Ho.
  mean4 0%Z 7%Z s1 S1 E1. mean4 0%Z 7%Z s2 S2 E2. mean4 0%Z 7%Z s3 S3 E3.
  repeat (apply Forall_cons_2; [apply radius_between; lia|]).
  apply Forall_nil_2.
Qed.

Lemma radar_chart_closed_and_in_range_witness :
  rated_within 0 7 management_indikatoren normativ_lastig ∧
  cast_range indikatoren normativ_lastig ∧
  ∃ e fig,
    durchfuehr_komplette_analyse normativ_lastig = Some e ∧
    erstelle_radar_chart_perspektiven e = Some fig ∧
    Radar.theta fig = ["Normativ"; "Strategisch"; "Operativ"; "Normativ"] ∧
    length (Radar.r fig) = length (Radar.theta fig) ∧
    head (Radar.r fig) = last (Radar.r fig) ∧
    Radar.radialaxis_range fig = [0; 1]%Z ∧
    Forall (λ x, between 0 1 x = true) (Radar.r fig).
Proof.
  assert (H1 : rated_within 0 7 management_indikatoren normativ_lastig).
  { apply (bool_decide_unpack _). vm_compute. reflexivity. }
  assert (H2 : cast_range indikatoren normativ_lastig).
  { apply (bool_decide_unpack _). vm_compute. reflexivity. }
  split; [exact H1|].
  split; [exact H2|].
  apply (radar_chart_closed_and_in_range normativ_lastig H1 H2).
Defined.

End Orchestrated.

Section Charts.
Local Open Scope float_scope.

(** X3: the sunburst figure has 18 labels, 18 parents and 18 values; the
    labels are distinct and every parent is a label or the empty parent of
    the root; the value of each of the four groups is the mean of the values
    of its children, which are the scores of that family; the root Gesamt has
    the value 0 and four children. *)
Theorem sunburst_groups_are_means (e : StGallerAnalyseErgebnis) :
  let fig := erstelle_sunburst_chart_gesamt e in
  length (Sunburst.labels fig) = 18%nat ∧
  length (Sunburst.parents fig) = 18%nat ∧
  length (Sunburst.values fig) = 18%nat ∧
  NoDup (Sunburst.labels fig) ∧
  Forall (λ p, p ∈ "" :: Sunburst.labels fig) (Sunburst.parents fig) ∧
  Forall (λ g, sunburst_value fig g
                 = Some (Py.np_mean (sunburst_children fig g)))
    ["Management"; "Ordnung"; "Entwicklung"; "Systemisch"] ∧
  sunburst_children fig "Management"
    = [normativ_score e; strategisch_score e; operativ_score e] ∧
  sunburst_children fig "Ordnung"
    = [kultur_score e; strukturen_score e; prozesse_score e;
       technologien_score e] ∧
  sunburst_children fig "Entwicklung"
    = [reflexions_fähigkeit e; innovations_fähigkeit e;
       transformations_fähigkeit e] ∧
  sunburst_children fig "Systemisch"
    = [umwelt_sensitivität e; anpassungs_fähigkeit e; widerstands_fähigkeit e] ∧
  sunburst_value fig "Gesamt" = Some 0 ∧
  length (sunburst_children fig "Gesamt") = 4%nat.
Proof.
  cbv zeta. repeat split.
  - apply (bool_decide_unpack _). vm_compute. exact I.
  - repeat (apply Forall_cons_2;
      [repeat first [apply list_elem_of_here | apply list_elem_of_further]|]).
    apply Forall_nil_2.
  - repeat (apply Forall_cons_2; [reflexivity|]). apply Forall_nil_2.
Qed.

End Charts.

Section Tables.
Local Open Scope float_scope.

(** X4: for management, order and development ratings in the cast range,
    the keys of the three score mappings are the values of the three
    enumerations, in the order of their declaration, and the dominant
    perspective and the weakest and the strongest order element are values of
    their enumerations. *)
Theorem enum_values_are_score_keys (a : gmap string Z) :
  cast_range
    (management_indikatoren ++ ordnungs_indikatoren ++ entwicklungs_indikatoren) a →
  ∃ mp om ep,
    analysiere_management_perspektiven a = Some mp ∧
    analysiere_ordnungsmomente a = Some om ∧
    analysiere_entwicklungsperspektiven a = Some ep ∧
    Py.keys (Management.scores mp) =
      StGallerManagementDimension.value <$> StGallerManagementDimension.members ∧
    Py.keys (Ordnung.scores om) =
      StGallerOrdnungsmoment.value <$> StGallerOrdnungsmoment.members ∧
    Py.keys (Entwicklung.scores ep) =
      StGallerEntwicklungsperspektive.value
        <$> StGallerEntwicklungsperspektive.members ∧
    (∃ d, Management.dominante_perspektive mp
            = StGallerManagementDimension.value d) ∧
    (∃ d, Ordnung.schwaechstes_ordnungselement om
            = StGallerOrdnungsmoment.value d) ∧
    (∃ d, Ordnung.staerkstes_ordnungselement om
            = StGallerOrdnungsmoment.value d).
Proof.
  intros _. unfold analysiere_management_perspektiven, analysiere_ordnungsmomente,
    analysiere_entwicklungsperspektiven. cbv zeta.
  rewrite entwicklungs_profil_3.
  set (sm := [("normativ", _); _; _]). set (so := [("kultur", _); _; _; _]).
  destruct (Py.max_key sm) as [k|] eqn:Hk; [|discriminate].
  destruct (Py.min_key so) as [kmin|] eqn:Hmin; [|discriminate].
  destruct (Py.max_key so) as [kmax|] eqn:Hmax; [|discriminate].
  apply max_key_elem in Hk. apply min_key_elem in Hmin. apply max_key_elem in Hmax.
  eexists _, _, _. repeat split; simpl.
  - repeat (apply elem_of_cons in Hk as [->|Hk]);
      [by exists StGallerManagementDimension.NORMATIV
      |by exists StGallerManagementDimension.STRATEGISCH
      |by exists StGallerManagementDimension.OPERATIV
      |by apply elem_of_nil in Hk].
  - repeat (apply elem_of_cons in Hmin as [->|Hmin]);
      [by exists StGallerOrdnungsmoment.KULTUR
      |by exists StGallerOrdnungsmoment.STRUKTUREN
      |by exists StGallerOrdnungsmoment.PROZESSE
      |by exists StGallerOrdnungsmoment.TECHNOLOGIEN
      |by apply elem_of_nil in Hmin].
  - repeat (apply elem_of_cons in Hmax as [->|Hmax]);
      [by exists StGallerOrdnungsmoment.KULTUR
      |by exists StGallerOrdnungsmoment.STRUKTUREN
      |by exists StGallerOrdnungsmoment.PROZESSE
      |by exists StGallerOrdnungsmoment.TECHNOLOGIEN
      |by apply elem_of_nil in Hmax].
Qed.

Lemma enum_values_are_score_keys_witness :
  cast_range
    (management_indikatoren ++ ordnungs_indikatoren ++ entwicklungs_indikatoren)
    datennutzung_schwach ∧
  ∃ mp om ep,
    analysiere_management_perspektiven datennutzung_schwach = Some mp ∧
    analysiere_ordnungsmomente datennutzung_schwach = Some om ∧
    analysiere_entwicklungsperspektiven datennutzung_schwach = Some ep ∧
    Py.keys (Management.scores mp) =
      StGallerManagementDimension.value <$> StGallerManagementDimension.members ∧
    Py.keys (Ordnung.scores om) =
      StGallerOrdnungsmoment.value <$> StGallerOrdnungsmoment.members ∧
    Py.keys (Entwicklung.scores ep) =
      StGallerEntwicklungsperspektive.value
        <$> StGallerEntwicklungsperspektive.members ∧
    (∃ d, Management.dominante_perspektive mp
            = StGallerManagementDimension.value d) ∧
    (∃ d, Ordnung.schwaechstes_ordnungselement om
            = StGallerOrdnungsmoment.value d) ∧
    (∃ d, Ordnung.staerkstes_ordnungselement om
            = StGallerOrdnungsmoment.value d).
Proof.
  assert (H1 : cast_range
    (management_indikatoren ++ ordnungs_indikatoren ++ entwicklungs_indikatoren)
    datennutzung_schwach).
  { apply (bool_decide_unpack _). vm_compute. reflexivity. }
  split; [exact H1|].
  apply (enum_values_are_score_keys datennutzung_schwach H1).
Defined.

(** X5: for management and order ratings in the cast range, the comparisons
    of the management and of the order aggregator compare the balance and
    the coherence, and their optimum, study and finding are those of the
    registered benchmarks perspektiven_balance and
    ordnungsmomente_kohärenz. *)
Theorem registered_benchmarks_reach_the_comparisons (a : gmap string Z) :
  cast_range (management_indikatoren ++ ordnungs_indikatoren) a →
  ∃ mp om,
    analysiere_management_perspektiven a = Some mp ∧
    analysiere_ordnungsmomente a = Some om ∧
    Vergleich.aktueller_wert (Management.empirischer_vergleich mp)
      = Management.balance mp ∧
    Some (Vergleich.optimaler_benchmark (Management.empirischer_vergleich mp))
      = Benchmark.optimal <$> empirische_benchmarks !! "perspektiven_balance" ∧
    Some (Vergleich.studie (Management.empirischer_vergleich mp))
      = Benchmark.studie <$> empirische_benchmarks !! "perspektiven_balance" ∧
    Some (Vergleich.empirischer_befund (Management.empirischer_vergleich mp))
      = Benchmark.befund <$> empirische_benchmarks !! "perspektiven_balance" ∧
    Vergleich.aktueller_wert (Ordnung.empirischer_vergleich om)
      = Ordnung.kohärenz om ∧
    Some (Vergleich.optimaler_benchmark (Ordnung.empirischer_vergleich om))
      = Benchmark.optimal <$> empirische_benchmarks !! "ordnungsmomente_kohärenz" ∧
    Some (Vergleich.studie (Ordnung.empirischer_vergleich om))
      = Benchmark.studie <$> empirische_benchmarks !! "ordnungsmomente_kohärenz" ∧
    Some (Vergleich.empirischer_befund (Ordnung.empirischer_vergleich om))
      = Benchmark.befund <$> empirische_benchmarks !! "ordnungsmomente_kohärenz".
Proof.
  intros _. unfold analysiere_management_perspektiven, analysiere_ordnungsmomente.
  cbv zeta.
  set (sm := [("normativ", _); _; _]). set (so := [("kultur", _); _; _; _]).
  destruct (Py.max_key sm) as [k|] eqn:Hk; [|discriminate].
  destruct (Py.min_key so) as [kmin|] eqn:Hmin; [|discriminate].
  destruct (Py.max_key so) as [kmax|] eqn:Hmax; [|discriminate].
  eexists _, _. repeat split.
Qed.

Lemma registered_benchmarks_reach_the_comparisons_witness :
  cast_range (management_indikatoren ++ ordnungs_indikatoren) normativ_lastig ∧
  ∃ mp om,
    analysiere_management_perspektiven normativ_lastig = Some mp ∧
    analysiere_ordnungsmomente normativ_lastig = Some om ∧
    Vergleich.aktueller_wert (Management.empirischer_vergleich mp)
      = Management.balance mp ∧
    Some (Vergleich.optimaler_benchmark (Management.empirischer_vergleich mp))
      = Benchmark.optimal <$> empirische_benchmarks !! "perspektiven_balance" ∧
    Some (Vergleich.studie (Management.empirischer_vergleich mp))
      = Benchmark.studie <$> empirische_benchmarks !! "perspektiven_balance" ∧
    Some (Vergleich.empirischer_befund (Management.empirischer_vergleich mp))
      = Benchmark.befund <$> empirische_benchmarks !! "perspektiven_balance" ∧
    Vergleich.aktueller_wert (Ordnung.empirischer_vergleich om)
      = Ordnung.kohärenz om ∧
    Some (Vergleich.optimaler_benchmark (Ordnung.empirischer_vergleich om))
      = Benchmark.optimal <$> empirische_benchmarks !! "ordnungsmomente_kohärenz" ∧
    Some (Vergleich.studie (Ordnung.empirischer_vergleich om))
      = Benchmark.studie <$> empirische_benchmarks !! "ordnungsmomente_kohärenz" ∧
    Some (Vergleich.empirischer_befund (Ordnung.empirischer_vergleich om))
      = Benchmark.befund <$> empirische_benchmarks !! "ordnungsmomente_kohärenz".
Proof.
  assert (H1 : cast_range (management_indikatoren ++ ordnungs_indikatoren)
                 normativ_lastig).
  { apply (bool_decide_unpack _). vm_compute. reflexivity. }
  split; [exact H1|].
  apply (registered_benchmarks_reach_the_comparisons normativ_lastig H1).
Defined.

End Tables.

Section Verdicts.
Local Open Scope float_scope.

Lemma mean3_above_optimum s :
  (3 ≤ s ≤ 21)%Z →
  (0.7 <? mean_of_sum 3 s) = true ∧ (0 <? mean_of_sum 3 s - 0.7) = true.
Proof.
  intros Hs.
  assert (H : forallb (λ s,
    (0.7 <? mean_of_sum 3 s) && (0 <? mean_of_sum 3 s - 0.7)) (seqZ 3 19) = true)
    by (vm_compute; reflexivity).
  apply (forallb_seqZ _ _ _ s) in H; [|lia].
  apply andb_true_iff in H. exact H.
Qed.

(** X6: when the nine systemic ratings are in the cast range and the three
    environment indicators are rated between 1 and 7, the comparison of the
    systemic aggregator has the optimum 0.7, a positive deviation and the
    verdict überdurchschnittlich. *)
Theorem umwelt_vergleich_always_above_on_scale (a : gmap string Z) :
  rated_within 1 7
    ["marktbeobachtung"; "trendfruchterkennung"; "stakeholder_dialog"] a →
  cast_range systemische_indikatoren a →
  ∃ r, analysiere_systemische_eigenschaften a = Some r ∧
    Vergleich.aktueller_wert (Systemisch.empirischer_vergleich r)
      = Systemisch.umwelt_sensitivitaet r ∧
    between 1 7 (Systemisch.umwelt_sensitivitaet r) = true ∧
    Vergleich.optimaler_benchmark (Systemisch.empirischer_vergleich r) = 0.7 ∧
    (0 <? Vergleich.abweichung (Systemisch.empirischer_vergleich r)) = true ∧
    Vergleich.interpretation (Systemisch.empirischer_vergleich r)
      = "überdurchschnittlich".
Proof.
  intros H _. use_ratings H.
  unfold analysiere_systemische_eigenschaften. cbv zeta.
  mean3 1%Z 7%Z s1 S1 E1.
  destruct (mean3_above_optimum s1) as [Habove Hdev]; [lia|].
  eexists. split; [reflexivity|]. simpl. repeat split.
  - apply mean_of_sum_between; lia.
  - exact Hdev.
  - unfold _vergleiche_mit_benchmarks. simpl.
    change (default 0.7 (Benchmark.optimal <$> empirische_benchmarks !! "umwelt_sensitivitaet"))
      with 0.7.
    rewrite Habove. reflexivity.
Qed.

Lemma umwelt_vergleich_always_above_on_scale_witness :
  rated_within 1 7
    ["marktbeobachtung"; "trendfruchterkennung"; "stakeholder_dialog"] (uniform 1) ∧
  cast_range systemische_indikatoren (uniform 1) ∧
  ∃ r, analysiere_systemische_eigenschaften (uniform 1) = Some r ∧
    Vergleich.aktueller_wert (Systemisch.empirischer_vergleich r)
      = Systemisch.umwelt_sensitivitaet r ∧
    between 1 7 (Systemisch.umwelt_sensitivitaet r) = true ∧
    Vergleich.optimaler_benchmark (Systemisch.empirischer_vergleich r) = 0.7 ∧
    (0 <? Vergleich.abweichung (Systemisch.empirischer_vergleich r)) = true ∧
    Vergleich.interpretation (Systemisch.empirischer_vergleich r)
      = "überdurchschnittlich".
Proof.
  assert (H1 : rated_within 1 7
    ["marktbeobachtung"; "trendfruchterkennung"; "stakeholder_dialog"] (uniform 1)).
  { apply (bool_decide_unpack _). vm_compute. reflexivity. }
  assert (H2 : cast_range systemische_indikatoren (uniform 1)).
  { apply (bool_decide_unpack _). vm_compute. reflexivity. }
  split; [exact H1|].
  split; [exact H2|].
  apply (umwelt_vergleich_always_above_on_scale (uniform 1) H1 H2).
Defined.

(** X7: the profile classifier raises on the empty dict only; on any other
    dict the selected key is a key of the dict and the result is its label,
    or the fallback label when the key has none; a non-empty dict without a
    development key gets the fallback label Ausgeglichene Organisation. *)
Theorem entwicklungs_profil_of_any_dict (scores : Py.dict float) :
  (_bestimme_entwicklungs_profil scores = None ↔ scores = []) ∧
  (∀ k, Py.max_key scores = Some k →
     k ∈ Py.keys scores ∧
     _bestimme_entwicklungs_profil scores
       = Some (default "Ausgeglichene Organisation" (profile !! k))) ∧
  (scores ≠ [] →
   Forall (λ k, k ∉ ["reflexion"; "innovation"; "transformation"])
     (Py.keys scores) →
   _bestimme_entwicklungs_profil scores = Some "Ausgeglichene Organisation").
Proof.
  split; [|split].
  - destruct scores as [|item rest]; [split; reflexivity|].
    split; [|discriminate]. unfold _bestimme_entwicklungs_profil. cbn.
    discriminate.
  - intros k Hk. split; [apply max_key_elem, Hk|].
    unfold _bestimme_entwicklungs_profil. rewrite Hk.
    destruct scores; [discriminate|]. reflexivity.
  - intros Hne Hkeys. destruct scores as [|item rest]; [congruence|].
    unfold _bestimme_entwicklungs_profil.
    destruct (Py.max_key (item :: rest)) as [k|] eqn:Hk; [|discriminate].
    simpl. f_equal.
    apply max_key_elem in Hk. rewrite Forall_forall in Hkeys.
    specialize (Hkeys k Hk).
    unfold profile. rewrite !lookup_insert_ne, lookup_empty; [reflexivity|..];
      intros <-; apply Hkeys;
      repeat first [apply list_elem_of_here | apply list_elem_of_further].
Qed.

End Verdicts.

Section Session.
Local Open Scope float_scope.
Implicit Types state : gmap string SessionValue.

Lemma lookup_set_if_absent key value state j :
  set_if_absent key value state !! j =
  match state !! j with
  | Some x => Some x
  | None => if decide (key = j) then Some value else None
  end.
Proof.
  unfold set_if_absent. destruct (state !! key) eqn:Hk.
  - destruct (state !! j) eqn:Hj; [reflexivity|].
    destruct (decide (key = j)) as [->|]; [congruence|reflexivity].
  - rewrite lookup_insert. destruct (decide (key = j)) as [->|].
    + rewrite Hk. reflexivity.
    + destruct (state !! j); reflexivity.
Qed.

Lemma lookup_fill_defaults (l : Py.dict Z) : ∀ state j,
  foldl (λ state item, set_if_absent item.1 (SInt item.2) state) state l !! j =
  match state !! j with
  | Some x => Some x
  | None => SInt <$> Py.dict_get l j
  end.
Proof.
  induction l as [|[k z] l IH]; intros state j; simpl.
  - destruct (state !! j); reflexivity.
  - rewrite IH, lookup_set_if_absent. simpl.
    destruct (state !! j); [reflexivity|].
    destruct (decide (k = j)) as [->|Hne].
    + rewrite String.eqb_refl. reflexivity.
    + apply String.eqb_neq in Hne. rewrite Hne. reflexivity.
Qed.

Lemma dict_get_cons {V} (k : string) (v : V) (d : Py.dict V) j :
  Py.dict_get ((k, v) :: d) j = if String.eqb k j then Some v else Py.dict_get d j.
Proof. reflexivity. Qed.

Lemma dict_get_constant (v : Z) (l : list string) j :
  Py.dict_get ((λ k, (k, v)) <$> l) j = if decide (j ∈ l) then Some v else None.
Proof.
  induction l as [|k l IH].
  - destruct (decide (j ∈ [])) as [H|_]; [|reflexivity].
    apply elem_of_nil in H. destruct H.
  - rewrite fmap_cons, dict_get_cons.
    destruct (String.eqb_spec k j) as [->|Hne].
    + rewrite decide_True; [reflexivity|apply list_elem_of_here].
    + rewrite IH. destruct (decide (j ∈ l)) as [Hin|Hin].
      * rewrite decide_True; [reflexivity|apply list_elem_of_further, Hin].
      * rewrite decide_False; [reflexivity|].
        rewrite elem_of_cons. intros [->|?]; congruence.
Qed.

Lemma default_antworten_indikatoren :
  default_antworten = (λ k, (k, 4%Z)) <$> indikatoren.
Proof. reflexivity. Qed.

(** What a key holds after [init_session_state]. *)
Lemma lookup_init_session_state state j :
  init_session_state state !! j =
  match state !! j with
  | Some x => Some x
  | None =>
      if decide (j = "st_galler_analyzer") then Some SAnalyzer
      else if decide (j ∈ indikatoren) then Some (SInt 4)
      else if decide (j = "analyse_ergebnis") then Some SNone
      else None
  end.
Proof.
  unfold init_session_state.
  rewrite lookup_set_if_absent, lookup_fill_defaults, lookup_set_if_absent.
  rewrite default_antworten_indikatoren, dict_get_constant.
  destruct (state !! j); [reflexivity|].
  repeat case_decide; simplify_eq; reflexivity.
Qed.

(** X8: [init_session_state] keeps every entry of the session, sets each
    absent indicator to 4, an absent analyzer and an absent result to their
    defaults, and touches no other key; the keys of its defaults are the
    indicators that the aggregators read. *)
Theorem init_session_state_keeps_and_fills state :
  (∀ k v, state !! k = Some v → init_session_state state !! k = Some v) ∧
  (∀ k, k ∈ indikatoren → state !! k = None →
     init_session_state state !! k = Some (SInt 4)) ∧
  (state !! "st_galler_analyzer" = None →
     init_session_state state !! "st_galler_analyzer" = Some SAnalyzer) ∧
  (state !! "analyse_ergebnis" = None →
     init_session_state state !! "analyse_ergebnis" = Some SNone) ∧
  (∀ k, k ∉ "st_galler_analyzer" :: "analyse_ergebnis" :: indikatoren →
     init_session_state state !! k = state !! k) ∧
  Py.keys default_antworten = indikatoren.
Proof.
  repeat split.
  - intros k v H. rewrite lookup_init_session_state, H. reflexivity.
  - intros k Hk H. rewrite lookup_init_session_state, H.
    destruct (decide (k = "st_galler_analyzer")) as [->|_].
    + exfalso. revert Hk. apply (bool_decide_unpack _). vm_compute. exact I.
    + rewrite decide_True by exact Hk. reflexivity.
  - intros H. rewrite lookup_init_session_state, H. reflexivity.
  - intros H. rewrite lookup_init_session_state, H. reflexivity.
  - intros k Hk. rewrite lookup_init_session_state.
    destruct (state !! k); [reflexivity|].
    rewrite !not_elem_of_cons in Hk. destruct Hk as (H1 & H2 & H3).
    rewrite !decide_False by assumption. reflexivity.
Qed.

(** X9: [init_session_state], which runs at every rerun of the script, is
    idempotent. *)
Theorem init_session_state_idempotent state :
  init_session_state (init_session_state state) = init_session_state state.
Proof.
  apply map_eq. intros j.
  rewrite (lookup_init_session_state (init_session_state state)).
  destruct (init_session_state state !! j) eqn:H; [reflexivity|].
  rewrite lookup_init_session_state in H.
  destruct (state !! j); [discriminate|].
  repeat case_decide; congruence.
Qed.

Lemma lookup_sammle_antworten state j :
  sammle_antworten state !! j =
  if decide (j = "analyse_ergebnis") then None else state !! j ≫= as_int.
Proof.
  unfold sammle_antworten. rewrite lookup_omap, lookup_delete.
  repeat case_decide; simplify_eq; reflexivity.
Qed.

Lemma lookup_analyse_zuruecksetzen state j :
  analyse_zuruecksetzen state !! j =
  if decide (j = "st_galler_analyzer") then state !! j else None.
Proof.
  unfold analyse_zuruecksetzen. apply option_eq. intros x.
  rewrite map_lookup_filter_Some. simpl.
  destruct (decide (j = "st_galler_analyzer")) as [->|Hne].
  - split; [intros [H _]; exact H|intros H; split; [exact H|reflexivity]].
  - split; [intros [_ H]; contradiction|discriminate].
Qed.

(** X10: on a session that holds the analyzer under st_galler_analyzer and
    whose collected indicator ratings are in the cast range, the button of
    the overall analysis stores under analyse_ergebnis the result of the
    engine on the collected ratings, and changes nothing else; the collected
    ratings give each indicator the int of the session, and 0 where the
    session has no entry or the entry is no int. *)
Theorem vollstaendige_analyse_stores_result state :
  state !! "st_galler_analyzer" = Some SAnalyzer →
  cast_range indikatoren (sammle_antworten state) →
  ∃ e,
    vollstaendige_analyse state
      = Some (<["analyse_ergebnis" := SErgebnis e]> state) ∧
    durchfuehr_komplette_analyse (sammle_antworten state) = Some e ∧
    Forall (λ k, get (sammle_antworten state) k =
                 match state !! k with
                 | None => 0%Z
                 | Some v => default 0%Z (as_int v)
                 end) indikatoren.
Proof.
  intros Ha _.
  destruct (durchfuehr_komplette_analyse_fields (sammle_antworten state))
    as (e & He & _).
  exists e. split; [|split; [exact He|]].
  - unfold vollstaendige_analyse. rewrite He, Ha. reflexivity.
  - apply Forall_forall. intros k Hk. unfold get.
    rewrite lookup_sammle_antworten.
    assert (k ≠ "analyse_ergebnis") as Hne.
    { intros ->. revert Hk. apply (bool_decide_unpack _). vm_compute. exact I. }
    rewrite decide_False by exact Hne.
    destruct (state !! k) as [v|]; reflexivity.
Qed.

Lemma vollstaendige_analyse_stores_result_witness :
  init_session_state {[ "wertekongruenz" := SInt 7 ]} !! "st_galler_analyzer"
    = Some SAnalyzer ∧
  cast_range indikatoren
    (sammle_antworten (init_session_state {[ "wertekongruenz" := SInt 7 ]})) ∧
  ∃ e,
    vollstaendige_analyse (init_session_state {[ "wertekongruenz" := SInt 7 ]})
      = Some (<["analyse_ergebnis" := SErgebnis e]>
                (init_session_state {[ "wertekongruenz" := SInt 7 ]})) ∧
    durchfuehr_komplette_analyse
      (sammle_antworten (init_session_state {[ "wertekongruenz" := SInt 7 ]}))
      = Some e ∧
    Forall (λ k, get (sammle_antworten
                        (init_session_state {[ "wertekongruenz" := SInt 7 ]})) k =
                 match init_session_state {[ "wertekongruenz" := SInt 7 ]} !! k with
                 | None => 0%Z
                 | Some v => default 0%Z (as_int v)
                 end) indikatoren.
Proof.
  assert (H1 : init_session_state {[ "wertekongruenz" := SInt 7 ]}
                 !! "st_galler_analyzer" = Some SAnalyzer).
  { vm_compute. reflexivity. }
  assert (H2 : cast_range indikatoren
    (sammle_antworten (init_session_state {[ "wertekongruenz" := SInt 7 ]}))).
  { apply (bool_decide_unpack _). vm_compute. reflexivity. }
  split; [exact H1|]. split; [exact H2|].
  apply (vollstaendige_analyse_stores_result
           (init_session_state {[ "wertekongruenz" := SInt 7 ]}) H1 H2).
Defined.

(** X11: a second click on the button of the overall analysis changes
    nothing: the stored result is not collected as a rating. *)
Theorem vollstaendige_analyse_idempotent state state' :
  vollstaendige_analyse state = Some state' →
  vollstaendige_analyse state' = Some state'.
Proof.
  unfold vollstaendige_analyse. intros H.
  destruct (state !! "st_galler_analyzer") as [[]|] eqn:Ha; try discriminate.
  apply bind_Some in H as (e & He & [= <-]).
  rewrite lookup_insert_ne by discriminate. rewrite Ha.
  unfold sammle_antworten in *. rewrite delete_insert_eq, He.
  cbn [mbind option_bind]. rewrite insert_insert_eq. reflexivity.
Qed.

Lemma vollstaendige_analyse_idempotent_witness :
  ∃ e,
    vollstaendige_analyse {[ "st_galler_analyzer" := SAnalyzer ]}
      = Some (<["analyse_ergebnis" := SErgebnis e]>
                {[ "st_galler_analyzer" := SAnalyzer ]}) ∧
    vollstaendige_analyse
      (<["analyse_ergebnis" := SErgebnis e]> {[ "st_galler_analyzer" := SAnalyzer ]})
      = Some (<["analyse_ergebnis" := SErgebnis e]>
                {[ "st_galler_analyzer" := SAnalyzer ]}).
Proof.
  destruct (durchfuehr_komplette_analyse_fields ∅) as (e & He & _).
  exists e.
  assert (H : vollstaendige_analyse {[ "st_galler_analyzer" := SAnalyzer ]}
      = Some (<["analyse_ergebnis" := SErgebnis e]>
                {[ "st_galler_analyzer" := SAnalyzer ]})).
  { unfold vollstaendige_analyse.
    change (sammle_antworten {[ "st_galler_analyzer" := SAnalyzer ]})
      with (∅ : gmap string Z).
    rewrite He. reflexivity. }
  split; [exact H|].
  apply (vollstaendige_analyse_idempotent _ _ H).
Defined.

Lemma lookup_constant_map (v : Z) (l : list string) j :
  (list_to_map ((λ k, (k, v)) <$> l) : gmap string Z) !! j =
  if decide (j ∈ l) then Some v else None.
Proof.
  induction l as [|k l IH].
  - destruct (decide (j ∈ [])) as [H|_]; [|exact (lookup_empty j)].
    apply elem_of_nil in H. destruct H.
  - rewrite fmap_cons. cbn [list_to_map foldr]. rewrite lookup_insert.
    cbn [fst snd]. rewrite IH. rewrite (decide_ext (j ∈ k :: l) (k = j ∨ j ∈ l)).
    + repeat case_decide; try reflexivity; tauto.
    + rewrite elem_of_cons. split; intros [?|?]; auto.
Qed.

Lemma lookup_uniform v j :
  uniform v !! j = if decide (j ∈ indikatoren) then Some v else None.
Proof. apply lookup_constant_map. Qed.

(** X12: on every session whose entry under st_galler_analyzer, if it has
    one, is the analyzer, the reset button followed by the rerun restores the
    session of the first start: every rating is 4 again, and
    the overall analysis then gives 4 for every score and 1 for the balance
    and the coherence. *)
Theorem reset_restores_first_start state :
  analyzer_ok state →
  init_session_state (analyse_zuruecksetzen state) = init_session_state ∅ ∧
  sammle_antworten (init_session_state (analyse_zuruecksetzen state)) = uniform 4 ∧
  ∃ e,
    vollstaendige_analyse (init_session_state (analyse_zuruecksetzen state))
      = Some (<["analyse_ergebnis" := SErgebnis e]> (init_session_state ∅)) ∧
    Forall (λ x, x = 4)
      [ normativ_score e; strategisch_score e; operativ_score e;
        kultur_score e; strukturen_score e; prozesse_score e;
        technologien_score e; reflexions_fähigkeit e; innovations_fähigkeit e;
        transformations_fähigkeit e; umwelt_sensitivität e;
        anpassungs_fähigkeit e; widerstands_fähigkeit e ] ∧
    perspektiven_balance e = 1 ∧ ordnungsmomente_kohärenz e = 1.
Proof.
  intros Hok.
  assert (E : init_session_state (analyse_zuruecksetzen state)
              = init_session_state ∅).
  { apply map_eq. intros j.
    rewrite !lookup_init_session_state, lookup_analyse_zuruecksetzen, lookup_empty.
    destruct (decide (j = "st_galler_analyzer")) as [->|]; [|reflexivity].
    destruct (state !! "st_galler_analyzer") as [v|] eqn:Hv; [|reflexivity].
    rewrite (Hok v Hv). reflexivity. }
  assert (U : sammle_antworten (init_session_state ∅) = uniform 4).
  { apply map_eq. intros j.
    rewrite lookup_sammle_antworten, lookup_init_session_state, lookup_empty,
      lookup_uniform.
    destruct (decide (j ∈ indikatoren)) as [Hj|Hj].
    - assert (j ≠ "analyse_ergebnis") as Hne1.
      { intros ->. revert Hj. apply (bool_decide_unpack _). vm_compute. exact I. }
      assert (j ≠ "st_galler_analyzer") as Hne2.
      { intros ->. revert Hj. apply (bool_decide_unpack _). vm_compute. exact I. }
      rewrite !decide_False by assumption. reflexivity.
    - repeat case_decide; reflexivity. }
  rewrite E. split; [reflexivity|]. split; [exact U|].
  assert (D : ∃ e, durchfuehr_komplette_analyse (uniform 4) = Some e ∧
    Forall (λ x, x = 4)
      [ normativ_score e; strategisch_score e; operativ_score e;
        kultur_score e; strukturen_score e; prozesse_score e;
        technologien_score e; reflexions_fähigkeit e; innovations_fähigkeit e;
        transformations_fähigkeit e; umwelt_sensitivität e;
        anpassungs_fähigkeit e; widerstands_fähigkeit e ] ∧
    perspektiven_balance e = 1 ∧ ordnungsmomente_kohärenz e = 1).
  { eexists. split; [vm_compute; reflexivity|].
    split; [|split; vm_compute; reflexivity].
    repeat (apply Forall_cons_2; [vm_compute; reflexivity|]). apply Forall_nil_2. }
  destruct D as (e & He & Hfields). exists e. split; [|exact Hfields].
  unfold vollstaendige_analyse. rewrite U, He.
  rewrite lookup_init_session_state, lookup_empty. reflexivity.
Qed.

Lemma reset_restores_first_start_witness :
  analyzer_ok {[ "wertekongruenz" := SInt 7 ]} ∧
  init_session_state (analyse_zuruecksetzen {[ "wertekongruenz" := SInt 7 ]})
    = init_session_state ∅ ∧
  sammle_antworten
    (init_session_state (analyse_zuruecksetzen {[ "wertekongruenz" := SInt 7 ]}))
    = uniform 4 ∧
  ∃ e,
    vollstaendige_analyse
      (init_session_state (analyse_zuruecksetzen {[ "wertekongruenz" := SInt 7 ]}))
      = Some (<["analyse_ergebnis" := SErgebnis e]> (init_session_state ∅)) ∧
    Forall (λ x, x = 4)
      [ normativ_score e; strategisch_score e; operativ_score e;
        kultur_score e; strukturen_score e; prozesse_score e;
        technologien_score e; reflexions_fähigkeit e; innovations_fähigkeit e;
        transformations_fähigkeit e; umwelt_sensitivität e;
        anpassungs_fähigkeit e; widerstands_fähigkeit e ] ∧
    perspektiven_balance e = 1 ∧ ordnungsmomente_kohärenz e = 1.
Proof.
  assert (H : analyzer_ok {[ "wertekongruenz" := SInt 7 ]}).
  { intros v Hv. vm_compute in Hv. discriminate Hv. }
  split; [exact H|].
  apply (reset_restores_first_start {[ "wertekongruenz" := SInt 7 ]} H).
Defined.

End Session.

Section Recommendations.
Local Open Scope float_scope.

Lemma min_loop_values rest : ∀ best,
  PyList.min_loop best.2 rest.*2 = (Py.min_loop best rest).2.
Proof.
  induction rest as [|[k v] rest IH]; intros best; simpl; [reflexivity|].
  destruct (v <? best.2); [exact (IH (k, v)) | exact (IH best)].
Qed.

(** The [if]/[elif] chain over the four order scores stops at the key that
    [min] selects. *)
Lemma order_chain_selects_weakest k s p t (l : list string) (r1 r2 r3 r4 : string) :
  is_nan k = false → is_nan s = false → is_nan p = false → is_nan t = false →
  let d := [("kultur", k); ("strukturen", s); ("prozesse", p); ("technologien", t)] in
  let m := PyList.min_loop k [s; p; t] in
  ∃ key r,
    Py.min_key d = Some key ∧
    Py.dict_get [("kultur", r1); ("strukturen", r2); ("prozesse", r3);
                 ("technologien", r4)] key = Some r ∧
    (if k =? m then l ++ [r1]
     else if s =? m then l ++ [r2]
     else if p =? m then l ++ [r3]
     else if t =? m then l ++ [r4]
     else l) = l ++ [r].
Proof.
  intros Hk Hs Hp Ht d m.
  destruct (min_loop_first
              [("strukturen", s); ("prozesse", p); ("technologien", t)]
              [] ("kultur", k) [] Hk) as (pre & post & E & Hpre & _).
  { repeat (apply Forall_cons_2; [assumption|]). apply Forall_nil_2. }
  { apply Forall_nil_2. }
  { apply Forall_nil_2. }
  assert (Hm : m = (Py.min_loop ("kultur", k)
             [("strukturen", s); ("prozesse", p); ("technologien", t)]).2).
  { exact (min_loop_values
      [("strukturen", s); ("prozesse", p); ("technologien", t)] ("kultur", k)). }
  unfold d, Py.min_key. clearbody m.
  destruct (Py.min_loop ("kultur", k) _) as [key v]. simpl in Hm, Hpre. subst v.
  exists key.
  destruct pre as [|q1 [|q2 [|q3 [|q4 pre]]]]; simpl in E; simplify_eq;
    repeat match goal with
      | H : Forall _ (_ :: _) |- _ => apply Forall_cons in H as [? H]
      end; simpl in *;
    repeat match goal with
      | H : (?x <? ?y) = true |- _ =>
          destruct (F64Eq.ltb_not_eqb x y H) as [_ ?]; clear H
      end.
  1-4: eexists; split; [reflexivity|]; split; [reflexivity|];
    repeat match goal with
      | H : (_ =? _) = false |- _ => rewrite H; clear H
      end;
    rewrite F64Eq.eqb_refl by assumption; reflexivity.
  destruct pre; discriminate.
Qed.

End Recommendations.

Section RecommendationTheorems.
Local Open Scope float_scope.

Lemma ordnungs_empfehlung_inv k x :
  ordnungs_empfehlung k = Some x →
  In x [ "**Kultur entwickeln:** Gemeinsame Werte und Verhaltensnormen stärken";
         "**Strukturen optimieren:** Rollenklarheit und Entscheidungskompetenzen verbessern";
         "**Prozesse standardisieren:** Arbeitsabläufe und Entscheidungsgeschwindigkeit optimieren";
         "**Technologien modernisieren:** Systemunterstützung und Digitalisierung vorantreiben" ].
Proof.
  unfold ordnungs_empfehlung.
  repeat match goal with
    | |- context [String.eqb ?a ?b] => destruct (String.eqb a b)
    end; intros H; simplify_eq; simpl; tauto.
Qed.

Lemma not_ordnungs_empfehlung (l : list string) :
  forallb (λ x, negb (existsb (String.eqb x)
    [ "**Kultur entwickeln:** Gemeinsame Werte und Verhaltensnormen stärken";
      "**Strukturen optimieren:** Rollenklarheit und Entscheidungskompetenzen verbessern";
      "**Prozesse standardisieren:** Arbeitsabläufe und Entscheidungsgeschwindigkeit optimieren";
      "**Technologien modernisieren:** Systemunterstützung und Digitalisierung vorantreiben" ])) l
    = true →
  Forall (λ x, ∀ k, ordnungs_empfehlung k ≠ Some x) l.
Proof.
  intros H. apply Forall_forall. intros x Hx k Hk.
  apply ordnungs_empfehlung_inv in Hk.
  rewrite forallb_forall in H. apply list_elem_of_In in Hx.
  specialize (H x Hx). apply negb_true_iff in H.
  assert (existsb (String.eqb x)
    [ "**Kultur entwickeln:** Gemeinsame Werte und Verhaltensnormen stärken";
      "**Strukturen optimieren:** Rollenklarheit und Entscheidungskompetenzen verbessern";
      "**Prozesse standardisieren:** Arbeitsabläufe und Entscheidungsgeschwindigkeit optimieren";
      "**Technologien modernisieren:** Systemunterstützung und Digitalisierung vorantreiben" ]
    = true); [|congruence].
  apply existsb_exists. exists x. split; [exact Hk|apply String.eqb_refl].
Qed.

(** X13: for ratings in the cast range the recommendation list of the
    overall analysis ends with the recommendation for the weakest order
    element that the order aggregator selects; at most five entries precede
    it, and none of them is an order-element recommendation. *)
Theorem recommendations_end_with_weakest_element (a : gmap string Z) :
  cast_range indikatoren a →
  ∃ e om prefix r,
    durchfuehr_komplette_analyse a = Some e ∧
    analysiere_ordnungsmomente a = Some om ∧
    ordnungs_empfehlung (Ordnung.schwaechstes_ordnungselement om) = Some r ∧
    handlungsempfehlungen e = Some (prefix ++ [r]) ∧
    (length prefix ≤ 5)%nat ∧
    Forall (λ x, ∀ k, ordnungs_empfehlung k ≠ Some x) prefix.
Proof.
  intros _. destruct (durchfuehr_komplette_analyse_fields a)
    as (e & He & _ & _ & _ & Hk & Hs & Hp & Ht & _).
  exists e.
  unfold handlungsempfehlungen, analysiere_ordnungsmomente. cbv zeta.
  rewrite Hk, Hs, Hp, Ht.
  match goal with
  | |- context [PyList.min [?k; ?s; ?p; ?t]] =>
      set (K := k); set (S' := s); set (P' := p); set (T' := t)
  end.
  match goal with
  | |- context [if K =? _ then ?l ++ _ else _] => set (prefix := l)
  end.
  destruct (order_chain_selects_weakest K S' P' T' prefix
    "**Kultur entwickeln:** Gemeinsame Werte und Verhaltensnormen stärken"
    "**Strukturen optimieren:** Rollenklarheit und Entscheidungskompetenzen verbessern"
    "**Prozesse standardisieren:** Arbeitsabläufe und Entscheidungsgeschwindigkeit optimieren"
    "**Technologien modernisieren:** Systemunterstützung und Digitalisierung vorantreiben")
    as (key & r & Hmin & Hget & Hchain);
    try apply np_mean_int_3.
  cbv zeta in Hmin, Hchain.
  rewrite Hmin. cbn [mbind option_bind PyList.min].
  eexists _, prefix, r. split; [exact He|]. split; [reflexivity|].
  split.
  { cbn [Ordnung.schwaechstes_ordnungselement]. rewrite <- Hget.
    unfold ordnungs_empfehlung, Py.dict_get.
    rewrite !(String.eqb_sym key). reflexivity. }
  split; [f_equal; exact Hchain|].
  subst prefix.
  repeat match goal with
    | |- context [if ?c then _ else _] => destruct c
    end; (split; [simpl; lia|]);
    apply not_ordnungs_empfehlung; vm_compute; reflexivity.
Qed.

Lemma recommendations_end_with_weakest_element_witness :
  cast_range indikatoren datennutzung_schwach ∧
  ∃ e om prefix r,
    durchfuehr_komplette_analyse datennutzung_schwach = Some e ∧
    analysiere_ordnungsmomente datennutzung_schwach = Some om ∧
    ordnungs_empfehlung (Ordnung.schwaechstes_ordnungselement om) = Some r ∧
    handlungsempfehlungen e = Some (prefix ++ [r]) ∧
    (length prefix ≤ 5)%nat ∧
    Forall (λ x, ∀ k, ordnungs_empfehlung k ≠ Some x) prefix.
Proof.
  assert (H1 : cast_range indikatoren datennutzung_schwach).
  { apply (bool_decide_unpack _). vm_compute. reflexivity. }
  split; [exact H1|].
  apply (recommendations_end_with_weakest_element datennutzung_schwach H1).
Defined.

End RecommendationTheorems.

Section Extremes.
Local Open Scope float_scope.

(** A dict holds a key once, so the place of a key in it is unique. *)
Lemma dict_split_unique (pre : Py.dict float) : ∀ pre' k v v' post post',
  NoDup (pre ++ (k, v) :: post).*1 →
  pre ++ (k, v) :: post = pre' ++ (k, v') :: post' →
  pre = pre' ∧ v = v' ∧ post = post'.
Proof.
  induction pre as [|q pre IH]; intros [|q' pre'] k v v' post post' Hnd E;
    simpl in *.
  - simplify_eq. auto.
  - simplify_eq. apply NoDup_cons in Hnd as [Hk _]. exfalso. apply Hk.
    rewrite fmap_app, fmap_cons. apply elem_of_app. right. apply list_elem_of_here.
  - simplify_eq. apply NoDup_cons in Hnd as [Hk _]. exfalso. apply Hk.
    rewrite fmap_app, fmap_cons. apply elem_of_app. right. apply list_elem_of_here.
  - simplify_eq. apply NoDup_cons in Hnd as [_ Hnd].
    destruct (IH _ _ _ _ _ _ Hnd H0) as (-> & -> & ->). auto.
Qed.

(** When [min] and [max] select the same key, it is the first key, and every
    value equals its value. *)
Lemma min_key_is_max_key d k :
  no_nan d → NoDup d.*1 →
  Py.min_key d = Some k → Py.max_key d = Some k →
  ∃ v rest, d = (k, v) :: rest ∧ Forall (λ p, (p.2 =? v) = true) rest.
Proof.
  intros Hnan Hnd Hmin Hmax.
  destruct (min_key_first d k Hnan Hmin) as (pre & v & post & E & Hpre & Hpost).
  destruct (max_key_first d k Hnan Hmax)
    as (pre' & v' & post' & E' & Hpre' & Hpost').
  rewrite E in E', Hnd.
  destruct (dict_split_unique _ _ _ _ _ _ _ Hnd E') as (<- & <- & <-).
  destruct pre as [|q pre].
  - exists v, post. split; [exact E|].
    apply Forall_forall. intros p Hp.
    rewrite Forall_forall in Hpost, Hpost'.
    apply F64Eq.leb_antisym; auto.
  - apply Forall_cons in Hpre as [H1 _]. apply Forall_cons in Hpre' as [H2 _].
    apply F64.ltb_asym in H1. congruence.
Qed.

(** Conversely, when every value equals the first one, [min] and [max] both
    select the first key. *)
Lemma all_equal_min_max_loop rest : ∀ best,
  Forall (λ p, (p.2 =? best.2) = true) rest →
  Py.min_loop best rest = best ∧ Py.max_loop best rest = best.
Proof.
  induction rest as [|[k v] rest IH]; intros best H; simpl; [auto|].
  apply Forall_cons in H as [Hv H]. simpl in Hv.
  rewrite (F64.eqb_not_ltb _ _ Hv).
  rewrite F64Eq.eqb_sym in Hv. rewrite (F64.eqb_not_ltb _ _ Hv).
  apply IH, H.
Qed.

(** X14: for order ratings in the cast range, the weakest and the strongest
    order element coincide exactly when the four order scores are equal, and
    the element is then kultur, the first one. *)
Theorem weakest_is_strongest_iff_scores_equal (a : gmap string Z) :
  cast_range ordnungs_indikatoren a →
  ∃ om k s p t,
    analysiere_ordnungsmomente a = Some om ∧
    Ordnung.scores om =
      [("kultur", k); ("strukturen", s); ("prozesse", p); ("technologien", t)] ∧
    (Ordnung.schwaechstes_ordnungselement om =
       Ordnung.staerkstes_ordnungselement om ↔
     (s =? k) = true ∧ (p =? k) = true ∧ (t =? k) = true) ∧
    (Ordnung.schwaechstes_ordnungselement om =
       Ordnung.staerkstes_ordnungselement om →
     Ordnung.schwaechstes_ordnungselement om = "kultur").
Proof.
  intros _. eexists _, _, _, _, _. split; [reflexivity|].
  cbn [Ordnung.scores Ordnung.schwaechstes_ordnungselement
       Ordnung.staerkstes_ordnungselement].
  split; [reflexivity|].
  match goal with
  | |- context [Py.min_loop ("kultur", ?k)
                  [("strukturen", ?s); ("prozesse", ?p); ("technologien", ?t)]] =>
      set (K := k); set (S' := s); set (P' := p); set (T' := t)
  end.
  set (d := [("kultur", K); ("strukturen", S'); ("prozesse", P');
             ("technologien", T')]).
  assert (Hnan : no_nan d).
  { repeat (apply Forall_cons_2; [apply np_mean_int_3|]). apply Forall_nil_2. }
  assert (Hnd : NoDup d.*1).
  { apply (bool_decide_unpack _). vm_compute. reflexivity. }
  assert (Hfwd : (Py.min_loop ("kultur", K)
                    [("strukturen", S'); ("prozesse", P'); ("technologien", T')]).1 =
                 (Py.max_loop ("kultur", K)
                    [("strukturen", S'); ("prozesse", P'); ("technologien", T')]).1 →
                 (Py.min_loop ("kultur", K)
                    [("strukturen", S'); ("prozesse", P'); ("technologien", T')]).1
                   = "kultur" ∧
                 (S' =? K) = true ∧ (P' =? K) = true ∧ (T' =? K) = true).
  { intros E.
    destruct (min_key_is_max_key d _ Hnan Hnd eq_refl) as (v & rest & Hd & Hall).
    { unfold d, Py.max_key. f_equal. symmetry. exact E. }
    clear E.
    remember (Py.min_loop ("kultur", K)
      [("strukturen", S'); ("prozesse", P'); ("technologien", T')]).1 as kmin.
    unfold d in Hd. injection Hd as Hk <- <-. split; [symmetry; exact Hk|].
    repeat match goal with
      | H : Forall _ (_ :: _) |- _ => apply Forall_cons in H as [? H]
      end. simpl in *. auto. }
  split; [split|].
  - intros E. apply Hfwd, E.
  - intros (Hs & Hp & Ht).
    destruct (all_equal_min_max_loop
                [("strukturen", S'); ("prozesse", P'); ("technologien", T')]
                ("kultur", K)) as [-> ->]; [|reflexivity].
    repeat (apply Forall_cons_2; [assumption|]). apply Forall_nil_2.
  - intros E. apply Hfwd, E.
Qed.

Lemma weakest_is_strongest_iff_scores_equal_witness :
  cast_range ordnungs_indikatoren datennutzung_schwach ∧
  ∃ om k s p t,
    analysiere_ordnungsmomente datennutzung_schwach = Some om ∧
    Ordnung.scores om =
      [("kultur", k); ("strukturen", s); ("prozesse", p); ("technologien", t)] ∧
    (Ordnung.schwaechstes_ordnungselement om =
       Ordnung.staerkstes_ordnungselement om ↔
     (s =? k) = true ∧ (p =? k) = true ∧ (t =? k) = true) ∧
    (Ordnung.schwaechstes_ordnungselement om =
       Ordnung.staerkstes_ordnungselement om →
     Ordnung.schwaechstes_ordnungselement om = "kultur").
Proof.
  assert (H1 : cast_range ordnungs_indikatoren datennutzung_schwach).
  { apply (bool_decide_unpack _). vm_compute. reflexivity. }
  split; [exact H1|].
  apply (weakest_is_strongest_iff_scores_equal datennutzung_schwach H1).
Defined.

End Extremes.

Section Independence.
Implicit Types a b : gmap string Z.

Lemma agree_on_insert_outside ks a k z :
  k ∉ ks → agree_on ks (<[k:=z]> a) a.
Proof.
  intros Hk. apply Forall_forall. intros k' Hk'.
  apply get_insert_ne. intros ->. exact (Hk Hk').
Qed.

Lemma agree_on_delete_outside ks a k :
  k ∉ ks → agree_on ks (delete k a) a.
Proof.
  intros Hk. apply Forall_forall. intros k' Hk'. unfold get.
  rewrite lookup_delete_ne; [reflexivity|]. intros ->. exact (Hk Hk').
Qed.

Lemma agree_on_insert_zero ks a k :
  a !! k = None → agree_on ks (<[k:=0%Z]> a) a.
Proof.
  intros Hk. apply Forall_forall. intros k' _. apply get_insert_zero, Hk.
Qed.

Lemma not_in_other_family (l1 l2 : list string) k :
  forallb (λ x, negb (bool_decide (x ∈ l2))) l1 = true → k ∈ l1 → k ∉ l2.
Proof.
  intros H Hk Hk2. rewrite forallb_forall in H.
  apply list_elem_of_In in Hk. specialize (H k Hk).
  apply negb_true_iff, bool_decide_eq_false in H. exact (H Hk2).
Qed.

(** X15: each aggregator reads only the indicators of its own family: two
    ratings mappings that agree on them give the same result. *)
Theorem aggregators_read_only_their_family a b :
  (agree_on management_indikatoren a b →
   analysiere_management_perspektiven a = analysiere_management_perspektiven b) ∧
  (agree_on ordnungs_indikatoren a b →
   analysiere_ordnungsmomente a = analysiere_ordnungsmomente b) ∧
  (agree_on entwicklungs_indikatoren a b →
   analysiere_entwicklungsperspektiven a = analysiere_entwicklungsperspektiven b) ∧
  (agree_on systemische_indikatoren a b →
   analysiere_systemische_eigenschaften a = analysiere_systemische_eigenschaften b).
Proof.
  repeat split.
  - apply analysiere_management_perspektiven_ext.
  - apply analysiere_ordnungsmomente_ext.
  - apply analysiere_entwicklungsperspektiven_ext.
  - apply analysiere_systemische_eigenschaften_ext.
Qed.

(** X16: a key that is no indicator is ignored: writing it or deleting it
    leaves the consolidated result unchanged. *)
Theorem other_keys_are_ignored a k z :
  k ∉ indikatoren →
  durchfuehr_komplette_analyse (<[k:=z]> a) = durchfuehr_komplette_analyse a ∧
  durchfuehr_komplette_analyse (delete k a) = durchfuehr_komplette_analyse a.
Proof.
  intros Hk. split; apply durchfuehr_komplette_analyse_ext.
  - apply agree_on_insert_outside, Hk.
  - apply agree_on_delete_outside, Hk.
Qed.

Lemma other_keys_are_ignored_witness :
  durchfuehr_komplette_analyse (<["analyse_ergebnis":=7%Z]> (uniform 4)) =
    durchfuehr_komplette_analyse (uniform 4) ∧
  durchfuehr_komplette_analyse (delete "analyse_ergebnis" (uniform 4)) =
    durchfuehr_komplette_analyse (uniform 4).
Proof.
  apply (other_keys_are_ignored (uniform 4) "analyse_ergebnis" 7%Z).
  apply (bool_decide_unpack _). vm_compute. reflexivity.
Defined.

(** X17: an absent indicator counts as the rating 0: adding it with the
    value 0 leaves the consolidated result unchanged. *)
Theorem absent_rating_counts_as_zero a k :
  a !! k = None →
  durchfuehr_komplette_analyse (<[k:=0%Z]> a) = durchfuehr_komplette_analyse a.
Proof.
  intros Hk. apply durchfuehr_komplette_analyse_ext, agree_on_insert_zero, Hk.
Qed.

Lemma absent_rating_counts_as_zero_witness :
  durchfuehr_komplette_analyse (<["sinnstiftung":=0%Z]> ∅) =
  durchfuehr_komplette_analyse ∅.
Proof.
  apply (absent_rating_counts_as_zero ∅ "sinnstiftung"). reflexivity.
Defined.

(** X18: a rating of one family moves no other family's result. *)
Theorem rating_moves_only_its_family a k z :
  (k ∈ management_indikatoren →
   analysiere_ordnungsmomente (<[k:=z]> a) = analysiere_ordnungsmomente a ∧
   analysiere_entwicklungsperspektiven (<[k:=z]> a) =
     analysiere_entwicklungsperspektiven a ∧
   analysiere_systemische_eigenschaften (<[k:=z]> a) =
     analysiere_systemische_eigenschaften a) ∧
  (k ∈ ordnungs_indikatoren →
   analysiere_management_perspektiven (<[k:=z]> a) =
     analysiere_management_perspektiven a ∧
   analysiere_entwicklungsperspektiven (<[k:=z]> a) =
     analysiere_entwicklungsperspektiven a ∧
   analysiere_systemische_eigenschaften (<[k:=z]> a) =
     analysiere_systemische_eigenschaften a) ∧
  (k ∈ entwicklungs_indikatoren →
   analysiere_management_perspektiven (<[k:=z]> a) =
     analysiere_management_perspektiven a ∧
   analysiere_ordnungsmomente (<[k:=z]> a) = analysiere_ordnungsmomente a ∧
   analysiere_systemische_eigenschaften (<[k:=z]> a) =
     analysiere_systemische_eigenschaften a) ∧
  (k ∈ systemische_indikatoren →
   analysiere_management_perspektiven (<[k:=z]> a) =
     analysiere_management_perspektiven a ∧
   analysiere_ordnungsmomente (<[k:=z]> a) = analysiere_ordnungsmomente a ∧
   analysiere_entwicklungsperspektiven (<[k:=z]> a) =
     analysiere_entwicklungsperspektiven a).
Proof.
  repeat split;
    first [ apply analysiere_management_perspektiven_ext
          | apply analysiere_ordnungsmomente_ext
          | apply analysiere_entwicklungsperspektiven_ext
          | apply analysiere_systemische_eigenschaften_ext ];
    apply agree_on_insert_outside;
    match goal with
    | H : k ∈ ?l1 |- k ∉ ?l2 =>
        apply (not_in_other_family l1 l2 k); [vm_compute; reflexivity|exact H]
    end.
Qed.

End Independence.

Section BranchTotals.
Local Open Scope float_scope.

Lemma group_of_three_fours s1 s2 s3 :
  (4 ≤ s1 ≤ 28)%Z → (4 ≤ s2 ≤ 28)%Z → (4 ≤ s3 ≤ 28)%Z →
  let l := [mean_of_sum 4 s1; mean_of_sum 4 s2; mean_of_sum 4 s3] in
  (0 <? Py.np_mean l) = true ∧ (Py.np_mean l <? Py.np_sum l) = true.
Proof.
  intros H1 H2 H3.
  assert (H : forallb (λ s1, forallb (λ s2, forallb (λ s3,
    let l := [mean_of_sum 4 s1; mean_of_sum 4 s2; mean_of_sum 4 s3] in
    (0 <? Py.np_mean l) && (Py.np_mean l <? Py.np_sum l))
    (seqZ 4 25)) (seqZ 4 25)) (seqZ 4 25) = true) by (vm_compute; reflexivity).
  pick H s1. pick H s2. pick H s3. apply andb_true_iff in H. exact H.
Qed.

Lemma group_of_three_threes s1 s2 s3 :
  (3 ≤ s1 ≤ 21)%Z → (3 ≤ s2 ≤ 21)%Z → (3 ≤ s3 ≤ 21)%Z →
  let l := [mean_of_sum 3 s1; mean_of_sum 3 s2; mean_of_sum 3 s3] in
  (0 <? Py.np_mean l) = true ∧ (Py.np_mean l <? Py.np_sum l) = true.
Proof.
  intros H1 H2 H3.
  assert (H : forallb (λ s1, forallb (λ s2, forallb (λ s3,
    let l := [mean_of_sum 3 s1; mean_of_sum 3 s2; mean_of_sum 3 s3] in
    (0 <? Py.np_mean l) && (Py.np_mean l <? Py.np_sum l))
    (seqZ 3 19)) (seqZ 3 19)) (seqZ 3 19) = true) by (vm_compute; reflexivity).
  pick H s1. pick H s2. pick H s3. apply andb_true_iff in H. exact H.
Qed.

Lemma group_of_four_threes s1 s2 s3 s4 :
  (3 ≤ s1 ≤ 21)%Z → (3 ≤ s2 ≤ 21)%Z → (3 ≤ s3 ≤ 21)%Z → (3 ≤ s4 ≤ 21)%Z →
  let l := [mean_of_sum 3 s1; mean_of_sum 3 s2; mean_of_sum 3 s3;
            mean_of_sum 3 s4] in
  (0 <? Py.np_mean l) = true ∧ (Py.np_mean l <? Py.np_sum l) = true.
Proof.
  intros H1 H2 H3 H4.
  assert (H : forallb (λ s1, forallb (λ s2, forallb (λ s3, forallb (λ s4,
    let l := [mean_of_sum 3 s1; mean_of_sum 3 s2; mean_of_sum 3 s3;
              mean_of_sum 3 s4] in
    (0 <? Py.np_mean l) && (Py.np_mean l <? Py.np_sum l))
    (seqZ 3 19)) (seqZ 3 19)) (seqZ 3 19)) (seqZ 3 19) = true)
    by (vm_compute; reflexivity).
  pick H s1. pick H s2. pick H s3. pick H s4. apply andb_true_iff in H. exact H.
Qed.

(** X19: the sunburst figure asks for branch totals, but when every
    indicator is rated between 1 and 7 the value of each group is below the
    sum of its children, and the value 0 of the root is below each of its
    children. *)
Theorem sunburst_parents_below_branch_totals (a : gmap string Z) :
  rated_within 1 7 indikatoren a →
  ∃ e, durchfuehr_komplette_analyse a = Some e ∧
    let fig := erstelle_sunburst_chart_gesamt e in
    Sunburst.branchvalues fig = "total" ∧
    sunburst_value fig "Gesamt" = Some 0 ∧
    Forall (λ v, (0 <? v) = true) (sunburst_children fig "Gesamt") ∧
    Forall (λ g, ∃ v, sunburst_value fig g = Some v ∧
                   (v <? Py.np_sum (sunburst_children fig g)) = true)
      ["Management"; "Ordnung"; "Entwicklung"; "Systemisch"].
Proof.
  intros H. use_ratings H.
  destruct (durchfuehr_komplette_analyse_fields a)
    as (e & He & Hn & Hs & Ho & Hk & Hst & Hp & Ht & Hr & Hi & Htr & Hu & Han & Hw).
  exists e. split; [exact He|]. cbv zeta.
  split; [reflexivity|]. split; [reflexivity|].
  assert (Hm : let l := [normativ_score e; strategisch_score e; operativ_score e] in
               (0 <? Py.np_mean l) = true ∧ (Py.np_mean l <? Py.np_sum l) = true).
  { rewrite Hn, Hs, Ho.
    mean4 1%Z 7%Z s1 S1 E1. mean4 1%Z 7%Z s2 S2 E2. mean4 1%Z 7%Z s3 S3 E3.
    apply group_of_three_fours; lia. }
  assert (Hord : let l := [kultur_score e; strukturen_score e; prozesse_score e;
                           technologien_score e] in
               (0 <? Py.np_mean l) = true ∧ (Py.np_mean l <? Py.np_sum l) = true).
  { rewrite Hk, Hst, Hp, Ht.
    mean3 1%Z 7%Z s1 S1 E1. mean3 1%Z 7%Z s2 S2 E2. mean3 1%Z 7%Z s3 S3 E3.
    mean3 1%Z 7%Z s4 S4 E4.
    apply group_of_four_threes; lia. }
  assert (Hent : let l := [reflexions_fähigkeit e; innovations_fähigkeit e;
                           transformations_fähigkeit e] in
               (0 <? Py.np_mean l) = true ∧ (Py.np_mean l <? Py.np_sum l) = true).
  { rewrite Hr, Hi, Htr.
    mean3 1%Z 7%Z s1 S1 E1. mean3 1%Z 7%Z s2 S2 E2. mean3 1%Z 7%Z s3 S3 E3.
    apply group_of_three_threes; lia. }
  assert (Hsys : let l := [umwelt_sensitivität e; anpassungs_fähigkeit e;
                           widerstands_fähigkeit e] in
               (0 <? Py.np_mean l) = true ∧ (Py.np_mean l <? Py.np_sum l) = true).
  { rewrite Hu, Han, Hw.
    mean3 1%Z 7%Z s1 S1 E1. mean3 1%Z 7%Z s2 S2 E2. mean3 1%Z 7%Z s3 S3 E3.
    apply group_of_three_threes; lia. }
  cbv zeta in Hm, Hord, Hent, Hsys.
  split.
  - repeat (apply Forall_cons_2; [tauto|]). apply Forall_nil_2.
  - repeat (apply Forall_cons_2; [eexists; split; [reflexivity|tauto]|]).
    apply Forall_nil_2.
Qed.

Lemma sunburst_parents_below_branch_totals_witness :
  rated_within 1 7 indikatoren (uniform 4) ∧
  ∃ e, durchfuehr_komplette_analyse (uniform 4) = Some e ∧
    let fig := erstelle_sunburst_chart_gesamt e in
    Sunburst.branchvalues fig = "total" ∧
    sunburst_value fig "Gesamt" = Some 0 ∧
    Forall (λ v, (0 <? v) = true) (sunburst_children fig "Gesamt") ∧
    Forall (λ g, ∃ v, sunburst_value fig g = Some v ∧
                   (v <? Py.np_sum (sunburst_children fig g)) = true)
      ["Management"; "Ordnung"; "Entwicklung"; "Systemisch"].
Proof.
  assert (H : rated_within 1 7 indikatoren (uniform 4)).
  { apply (bool_decide_unpack _). vm_compute. reflexivity. }
  split; [exact H|].
  apply (sunburst_parents_below_branch_totals (uniform 4) H).
Defined.

End BranchTotals.
